(** * BootcampsAPI: the auth and bootcamp controllers

    A shallow embedding of the handlers [register], [login],
    [forgotPassword] and [resetPassword] of [controllers/auth.js], with
    their helper [sendTokenResponse], and of the handlers
    [getBootcamp], [createBootcamp], [updateBootcamp], [deleteBootcamp]
    and [bootcampPhotoUpload] of [controllers/bootcamps.js].

    A handler is an [async function (req, res, next)].  It reads the
    request, talks to the two Mongo collections through the Mongoose
    models, may send a mail, and finally either answers on [res] or
    hands an error to [next].  Here a handler is a function from the
    world before the request to the world after it; the world holds the
    two collections and the list of everything the handler did, in the
    order it did it. *)

From stdpp Require Import base option list strings gmap.
From Stdlib Require Import ZArith Lia Ascii.

Local Open Scope Z_scope.

(** ** Documents *)

(** A document of the [users] collection.  Every schema path is either
    [undefined] or holds a value, as on the Mongoose document. *)
Record User := mkUser {
  _id : string;
  name : option string;
  email : option string;
  role : option string;
  password : option string;
  resetPasswordToken : option string;
  resetPasswordExpire : option Z;
}.

(** A document of the [bootcamps] collection: its id, the owner
    ([bootcamp.user], an ObjectId, kept as its string) and the other
    fields. *)
Record Bootcamp := mkBootcamp {
  bootcamp_id : string;
  bootcamp_user : string;
  bootcamp_data : gmap string string;
}.

(** ** Errors, responses and the trace of a request *)

(** [ErrorResponse] is the repository's error class (a message and a
    status code); the other constructors are the errors raised by
    Mongoose, by the Mongo driver and by the JavaScript runtime. *)
Inductive JsError :=
| ErrorResponse (message : string) (statusCode : Z)
| ValidationError (message : string)
| MongoError (code : Z)
| Error (message : string).

(** The values the handlers put into a response body, and the body: an
    object literal, as the list of its properties. *)
Inductive JsonValue :=
| JBool (b : bool)
| JString (s : string)
| JUser (u : User)
| JBootcamp (b : Bootcamp)
| JEmptyObject.

Definition Json : Type := list (string * JsonValue).

(** The third argument of [res.cookie]; [secure = false] stands for the
    option being absent. *)
Record CookieOptions := mkCookieOptions {
  expires : Z;
  httpOnly : bool;
  secure : bool;
}.

(** The argument of [sendEmail]. *)
Record Mail := mkMail {
  mail_email : option string;
  mail_subject : string;
  mail_message : string;
}.

(** What a handler does that is visible outside of it. *)
Inductive Event :=
| UserCreated (u : User)                 (* User.create resolved *)
| UserSaved (u : User)                   (* user.save resolved *)
| BootcampCreated (b : Bootcamp)         (* Bootcamp.create resolved *)
| BootcampDeleted (b : Bootcamp)         (* the collection dropped b *)
| SendEmail (m : Mail)                   (* sendEmail was called *)
| ConsoleLog (e : JsError)
| ResJson (statusCode : Z) (cookie : option (string * string * CookieOptions))
          (body : Json)                  (* res.status(..)[.cookie(..)].json(..) *)
| Next (e : JsError).                    (* next(err) *)

Record World := mkWorld {
  users : list User;
  bootcamps : list Bootcamp;
  trace : list Event;
}.

(** ** The request and its environment *)

(** [req.body] is the parsed JSON body, taken with fields that are
    absent or strings; numbers, booleans, [null] and nested objects are
    outside of the model.  The route parameters are always bound by the
    router, and an id among them is taken to be well formed (Mongoose
    rejects another one before any lookup).  [req.user] is set by the
    [protect] middleware on private routes. *)
Record Request := mkRequest {
  body : gmap string string;
  params_id : string;
  params_resettoken : string;
  protocol : string;
  host : string;
  user : option User;
}.

(** What the handler obtains from outside during one request: the clock,
    the random generators, the mail transport and [process.env]. *)
Record Env := mkEnv {
  now : Z;                               (* Date.now() *)
  randomBytes : string;                  (* crypto.randomBytes(20).toString('hex') *)
  genSalt : string;                      (* bcrypt.genSalt(10) *)
  newObjectId : string;                  (* the _id of a new document *)
  sendEmail : Mail -> option JsError;    (* None: delivered; Some e: throws e *)
  JWT_COOKIE_EXPIRE : Z;
  NODE_ENV : string;
}.

(** The one-way functions of [crypto], [bcryptjs] and [jsonwebtoken]. *)
Class Crypto := {
  sha256 : string -> string;             (* createHash('sha256').update(s).digest('hex') *)
  bcrypt_hash : string -> string -> string;    (* bcrypt.hash(password, salt) *)
  bcrypt_compare : string -> string -> bool;   (* bcrypt.compare(entered, hash) *)
  jwt_sign : string -> string;           (* jwt.sign({ id }, JWT_SECRET, { expiresIn }) *)
}.

(** The validators of the two Mongoose schemas ([models/User.js] and
    [models/Bootcamp.js] are not part of the sources at hand). *)
Class Schema := {
  userValid : User -> bool;
  bootcampValid : list Bootcamp -> Bootcamp -> bool;
}.

(** The update validators of the Bootcamp schema, which
    [findByIdAndUpdate] runs under [runValidators: true] on the stored
    document and the fields to set. *)
Class UpdateSchema := {
  bootcampUpdateValid : Bootcamp -> gmap string string -> bool;
}.

(** ** JavaScript values *)

(** [!v] is false exactly for a non-empty string. *)
Definition truthy (v : option string) : bool :=
  match v with
  | Some s => bool_decide (s <> "")
  | None => false
  end.

(** A value inside a template literal. *)
Definition render (v : option string) : string :=
  match v with
  | Some s => s
  | None => "undefined"
  end.

(** ** Handlers as state transformers that may throw *)

Inductive Completion (A : Type) :=
| Normal (a : A)
| Thrown (e : JsError).
Arguments Normal {A} a.
Arguments Thrown {A} e.

Definition M (A : Type) : Type := World -> Completion A * World.

Definition ret {A} (a : A) : M A := fun w => (Normal a, w).

Definition bind {A B} (m : M A) (k : A -> M B) : M B :=
  fun w =>
    match m w with
    | (Normal a, w') => k a w'
    | (Thrown e, w') => (Thrown e, w')
    end.

Definition throw {A} (e : JsError) : M A := fun w => (Thrown e, w).

(** [try { m } catch (err) { h err }] *)
Definition try_catch {A} (m : M A) (h : JsError -> M A) : M A :=
  fun w =>
    match m w with
    | (Normal a, w') => (Normal a, w')
    | (Thrown e, w') => h e w'
    end.

#[global] Instance M_ret : MRet M := @ret.
#[global] Instance M_bind : MBind M := fun A B k m => bind m k.

Definition emit (e : Event) : M unit :=
  fun w => (Normal tt, mkWorld (users w) (bootcamps w) (trace w ++ [e])).

Definition next (e : JsError) : M unit := emit (Next e).

(** An answer sent on [res]. *)
Definition is_response (e : Event) : bool :=
  match e with
  | ResJson _ _ _ => true
  | _ => false
  end.

(** The response object [res] of a request.  What the handlers need of
    it is whether the response has been sent; the model keeps the point
    of the trace at which the request began, the response being sent
    once the trace holds an answer after that point. *)
Definition Res : Type := nat.

Definition headersSent (res : Res) (w : World) : bool :=
  existsb is_response (drop res (trace w)).
Arguments headersSent : simpl never.

(** [res.status(statusCode).json(b)], with the cookie when the chain
    sets one.  A response is sent once: on a response already sent
    Express throws before anything is written. *)
Definition res_json (res : Res) (statusCode : Z)
    (cookie : option (string * string * CookieOptions)) (b : Json) : M unit :=
  fun w =>
    if headersSent res w
    then (Thrown (Error "Cannot set headers after they are sent to the client"), w)
    else emit (ResJson statusCode cookie b) w.

Definition console_log (e : JsError) : M unit := emit (ConsoleLog e).

(** Modelled from the spec: [middleware/async.js], the uniform
    error-forwarding helper every handler is wrapped in.  It runs the
    handler, on the fresh response object of the request, and hands
    whatever the handler throws to [next]. *)
Definition asyncHandler (fn : Res -> M unit) (w : World) : World :=
  match fn (length (trace w)) w with
  | (Normal _, w') => w'
  | (Thrown e, w') => snd (next e w')
  end.

(** [req.user], an [undefined] one failing at its first property read. *)
Definition req_user (req : Request) : M User :=
  match user req with
  | Some u => ret u
  | None => throw (Error "TypeError: Cannot read property 'id' of undefined")
  end.

(** Assignments to the three paths the handlers write. *)
Definition set_password (v : option string) (u : User) : User :=
  mkUser (_id u) (name u) (email u) (role u) v
         (resetPasswordToken u) (resetPasswordExpire u).

Definition set_resetPasswordToken (v : option string) (u : User) : User :=
  mkUser (_id u) (name u) (email u) (role u) (password u)
         v (resetPasswordExpire u).

Definition set_resetPasswordExpire (v : option Z) (u : User) : User :=
  mkUser (_id u) (name u) (email u) (role u) (password u)
         (resetPasswordToken u) v.

(** ** Query objects *)

(** [{ email: e }] *)
Definition by_email (e : option string) (u : User) : bool :=
  bool_decide (email u = e).

(** [{ resetPasswordToken: h, resetPasswordExpire: { $gt: t } }] *)
Definition by_reset_token (h : string) (t : Z) (u : User) : bool :=
  bool_decide (resetPasswordToken u = Some h)
  && match resetPasswordExpire u with
     | Some e => bool_decide (t < e)
     | None => false
     end.

(** [{ user: uid }] *)
Definition by_user (uid : string) (b : Bootcamp) : bool :=
  bool_decide (bootcamp_user b = uid).

(** [{ _id: id }] *)
Definition by_id (id : string) (b : Bootcamp) : bool :=
  bool_decide (bootcamp_id b = id).

(** ** The User model *)

Module UserModel.
Section Model.
Context `{Crypto, Schema}.

(** Modelled from the spec: the read projection of [models/User.js].
    The password is left out of a read unless the query asks for it
    with [select('+password')]. *)
Definition project (select_password : bool) (u : User) : User :=
  if select_password then u else set_password None u.

(** [User.findOne(filter)]: the first matching document of the
    collection, or [null]. *)
Definition findOne (filter : User -> bool) (select_password : bool)
  : M (option User) :=
  fun w => (Normal (project select_password <$> List.find filter (users w)), w).

(** Modelled from the spec: the pre-save hook of [models/User.js].  A
    password set on the document is replaced by its salted hash; a
    document read without its password has none to hash. *)
Definition pre_save (salt : string) (doc : User) : User :=
  match password doc with
  | Some p => set_password (Some (bcrypt_hash p salt)) doc
  | None => doc
  end.

(** Modelled from the spec: the stored document after a save of [doc],
    a save writing the changed paths only.  The reset fields, which the
    handlers assign, are written; the password is written when the
    document carries one. *)
Definition merge (doc stored : User) : User :=
  mkUser (_id stored) (name stored) (email stored) (role stored)
         (match password doc with
          | Some h => Some h
          | None => password stored
          end)
         (resetPasswordToken doc) (resetPasswordExpire doc).

(** Modelled from the spec: the collection after the write of [doc],
    which replaces what is stored under its [_id]. *)
Definition write (doc : User) (l : list User) : list User :=
  (fun s => if bool_decide (_id s = _id doc) then merge doc s else s) <$> l.

(** Modelled from the spec: [user.save({ validateBeforeSave })].
    Validation, unless bypassed, then the pre-save hook, then the
    write of the document under its [_id]. *)
Definition save (env : Env) (validateBeforeSave : bool) (doc : User) : M User :=
  fun w =>
    if validateBeforeSave && negb (userValid doc)
    then (Thrown (ValidationError "User validation failed"), w)
    else
      let doc' := pre_save (genSalt env) doc in
      (Normal doc',
       mkWorld (write doc' (users w)) (bootcamps w)
               (trace w ++ [UserSaved doc'])).

(** Modelled from the spec: [User.create(fields)].  Validation, the
    pre-save hook, then the insert, which the unique index on [email]
    refuses for an address already in the collection. *)
Definition create (env : Env) (name email password role : option string)
  : M User :=
  fun w =>
    let doc := mkUser (newObjectId env) name email role password None None in
    if negb (userValid doc)
    then (Thrown (ValidationError "User validation failed"), w)
    else
      match password with
      | None => (Thrown (Error "Illegal arguments: undefined, string"), w)
      | Some _ =>
          let doc' := pre_save (genSalt env) doc in
          if existsb (by_email email) (users w)
          then (Thrown (MongoError 11000), w)
          else (Normal doc',
                mkWorld (users w ++ [doc']) (bootcamps w)
                        (trace w ++ [UserCreated doc']))
      end.

(** Modelled from the spec: [user.matchPassword(entered)], the
    verification of the entered password against the stored hash. *)
Definition matchPassword (u : User) (entered : option string) : M bool :=
  match entered, password u with
  | Some p, Some h => ret (bcrypt_compare p h)
  | _, _ => throw (Error "Illegal arguments")
  end.

(** Modelled from the spec: [user.getResetPasswordToken()].  A random
    token is drawn; its hash and an expiry ten minutes ahead are set
    on the document; the token itself is returned. *)
Definition getResetPasswordToken (env : Env) (u : User) : M (string * User) :=
  let resetToken := randomBytes env in
  let u := set_resetPasswordToken (Some (sha256 resetToken)) u in
  let u := set_resetPasswordExpire (Some (now env + 10 * 60 * 1000)) u in
  ret (resetToken, u).

(** Modelled from the spec: [user.getSignedJwtToken()], a signed token
    over the user's identity. *)
Definition getSignedJwtToken (u : User) : string := jwt_sign (_id u).

End Model.
End UserModel.

(** ** The Bootcamp model *)

Module BootcampModel.
Section Model.
Context `{Schema}.

(** [Bootcamp.findOne(filter)] *)
Definition findOne (filter : Bootcamp -> bool) : M (option Bootcamp) :=
  fun w => (Normal (List.find filter (bootcamps w)), w).

(** The collection without its first document matching [filter]. *)
Fixpoint delete_first (filter : Bootcamp -> bool) (l : list Bootcamp)
  : list Bootcamp :=
  match l with
  | [] => []
  | b :: l' => if filter b then l' else b :: delete_first filter l'
  end.

(** [Bootcamp.findByIdAndDelete(id)]: finds the document, deletes it
    from the collection and returns it; [null] when there is none.
    The id is a well formed ObjectId, as for every lookup by id of this
    module: for another one Mongoose throws a [CastError] before it
    looks anything up, a path that is outside of the model. *)
Definition findByIdAndDelete (id : string) : M (option Bootcamp) :=
  fun w =>
    match List.find (by_id id) (bootcamps w) with
    | Some b =>
        (Normal (Some b),
         mkWorld (users w) (delete_first (by_id id) (bootcamps w))
                 (trace w ++ [BootcampDeleted b]))
    | None => (Normal None, w)
    end.

(** [bootcamp.remove()], not awaited by its caller: deletes the
    document from the collection if it is still there. *)
Definition remove (b : Bootcamp) : M unit :=
  fun w =>
    match List.find (by_id (bootcamp_id b)) (bootcamps w) with
    | Some b' =>
        (Normal tt,
         mkWorld (users w) (delete_first (by_id (bootcamp_id b)) (bootcamps w))
                 (trace w ++ [BootcampDeleted b']))
    | None => (Normal tt, w)
    end.

(** [Bootcamp.create(body)]: the document is built from the body, its
    owner being the body's [user]; the schema's validators decide
    whether it is inserted. *)
Definition create (env : Env) (body : gmap string string) : M Bootcamp :=
  fun w =>
    match body !! "user" with
    | None => (Thrown (ValidationError "Bootcamp validation failed"), w)
    | Some uid =>
        let doc := mkBootcamp (newObjectId env) uid (delete "user" body) in
        if bootcampValid (bootcamps w) doc
        then (Normal doc,
              mkWorld (users w) (bootcamps w ++ [doc])
                      (trace w ++ [BootcampCreated doc]))
        else (Thrown (ValidationError "Bootcamp validation failed"), w)
    end.

(** [Bootcamp.findById(id)] *)
Definition findById (id : string) : M (option Bootcamp) :=
  fun w => (Normal (List.find (by_id id) (bootcamps w)), w).

(** The collection with its first document matching [filter] replaced. *)
Fixpoint replace_first (filter : Bootcamp -> bool) (b' : Bootcamp)
    (l : list Bootcamp) : list Bootcamp :=
  match l with
  | [] => []
  | b :: l' => if filter b then b' :: l' else b :: replace_first filter b' l'
  end.

(** The document after the fields of [body] are set on it: [user] is
    the owner, every other field goes to the data; the [_id] stays. *)
Definition apply_update (body : gmap string string) (b : Bootcamp) : Bootcamp :=
  mkBootcamp (bootcamp_id b)
             (default (bootcamp_user b) (body !! "user"))
             (delete "_id" (delete "user" body) ∪ bootcamp_data b).

(** [Bootcamp.findByIdAndUpdate(id, body, { new: true, runValidators })]:
    [null] when no document has the id; otherwise the fields of the
    body are set on the document, and the updated document is returned.
    The server refuses a body that would change the [_id]; the update
    validators, when asked for, may refuse the body. *)
Definition findByIdAndUpdate `{UpdateSchema} (id : string)
    (body : gmap string string) (runValidators : bool) : M (option Bootcamp) :=
  fun w =>
    match List.find (by_id id) (bootcamps w) with
    | None => (Normal None, w)
    | Some b =>
        if runValidators && negb (bootcampUpdateValid b body)
        then (Thrown (ValidationError "Validation failed"), w)
        else if bool_decide (is_Some (body !! "_id") /\ body !! "_id" <> Some id)
        then (Thrown (MongoError 66), w)
        else
          let b' := apply_update body b in
          (Normal (Some b'),
           mkWorld (users w) (replace_first (by_id id) b' (bootcamps w))
                   (trace w))
    end.

End Model.
End BootcampModel.

(** ** controllers/auth.js *)

Section Auth.
Context `{Crypto, Schema}.

(** [await sendEmail(options)] *)
Definition send_email (env : Env) (m : Mail) : M unit :=
  emit (SendEmail m);;
  match sendEmail env m with
  | None => ret tt
  | Some err => throw err
  end.

(** Get token from model, create cookie and send response.  The expiry
    of the cookie is computed on integers, for a [JWT_COOKIE_EXPIRE]
    that is a number of days within the range of a date. *)
Definition sendTokenResponse (env : Env) (user : User) (statusCode : Z)
    (res : Res) : M unit :=
  (* Create Token *)
  let token := UserModel.getSignedJwtToken user in
  let options :=
    mkCookieOptions (now env + JWT_COOKIE_EXPIRE env * 24 * 60 * 60 * 1000)
                    true
                    (bool_decide (NODE_ENV env = "production")) in
  res_json res statusCode (Some ("token", token, options))
           [("success", JBool true); ("token", JString token)].

(** Register user.  POST /api/v1/auth/register *)
Definition register (env : Env) (req : Request) : World -> World :=
  asyncHandler (fun res =>
    let name := body req !! "name" in
    let email := body req !! "email" in
    let password := body req !! "password" in
    let role := body req !! "role" in
    (* Create User *)
    user ← UserModel.create env name email password role;
    sendTokenResponse env user 200 res).

(** Login user.  POST /api/v1/auth/login *)
Definition login (env : Env) (req : Request) : World -> World :=
  asyncHandler (fun res =>
    let email := body req !! "email" in
    let password := body req !! "password" in
    (* Validate email & password *)
    if negb (truthy email) || negb (truthy password)
    then next (ErrorResponse "Please provide a email and password" 400)
    else
      (* Check for user *)
      user ← UserModel.findOne (by_email email) true;
      match user with
      | None => next (ErrorResponse "Invalid credentials" 401)
      | Some user =>
          (* Check if password matches *)
          isMatch ← UserModel.matchPassword user password;
          if negb isMatch
          then next (ErrorResponse "Invalid credentials" 401)
          else sendTokenResponse env user 200 res
      end).

Definition newline : string := String "010"%char "".

(** The text of the reset mail around the reset url. *)
Definition reset_message (resetUrl : string) : string :=
  "You are reciving this email because you (or some one else) has"
  +:+ newline
  +:+ "  requested the reset of a password. Please make a PUT request to: "
  +:+ newline +:+ newline +:+ " " +:+ resetUrl.

(** Forgot password.  POST /api/v1/auth/forgotpassword

    The [try] statement yields whether its [catch] block returned
    from the handler; the statement after it runs when it did not. *)
Definition forgotPassword (env : Env) (req : Request) : World -> World :=
  asyncHandler (fun res =>
    user ← UserModel.findOne (by_email (body req !! "email")) false;
    match user with
    | None =>
        next (ErrorResponse
                ("There is no user with the email "
                 +:+ render (body req !! "email")) 404)
    | Some user =>
        (* Get reset token *)
        '(resetToken, user) ← UserModel.getResetPasswordToken env user;
        user ← UserModel.save env false user;
        (* Create reset url *)
        let resetUrl :=
          protocol req +:+ "://" +:+ host req
          +:+ "/api/v1/auth/resetpassword/" +:+ resetToken in
        let message := reset_message resetUrl in
        returned ←
          try_catch
            (send_email env (mkMail (email user) "Password reset token" message);;
             res_json res 200 None
                      [("success", JBool true); ("data", JString "Email sent")];;
             ret false)
            (fun err =>
               console_log err;;
               let user := set_resetPasswordToken None user in
               let user := set_resetPasswordExpire None user in
               UserModel.save env false user;;
               next (ErrorResponse "Email could not be sent" 500);;
               ret true);
        if (returned : bool) then ret tt
        else
          res_json res 200 None [("success", JBool true); ("data", JUser user)]
    end).

(** Reset Password.  PUT /api/v1/auth/resetpassword/:resettoken *)
Definition resetPassword (env : Env) (req : Request) : World -> World :=
  asyncHandler (fun res =>
    (* Get hash token *)
    let resetPasswordToken := sha256 (params_resettoken req) in
    user ← UserModel.findOne (by_reset_token resetPasswordToken (now env)) false;
    match user with
    | None => next (ErrorResponse "Invalid Token" 400)
    | Some user =>
        (* Set new password *)
        let user := set_password (body req !! "password") user in
        let user := set_resetPasswordToken None user in
        let user := set_resetPasswordExpire None user in
        user ← UserModel.save env true user;
        sendTokenResponse env user 200 res
    end).

End Auth.

(** ** controllers/bootcamps.js *)

Section Bootcamps.
Context `{Schema}.

(** Create New Bootcamp.  POST /api/v1/bootcamps *)
Definition createBootcamp (env : Env) (req : Request) : World -> World :=
  asyncHandler (fun res =>
    (* Add user to req.body *)
    u ← req_user req;
    let body := <["user" := _id u]> (body req) in
    (* Check for published bootcamp *)
    publishedBootcamp ← BootcampModel.findOne (by_user (_id u));
    (* If the user is not an admin, they can only add one bootcamp *)
    if bool_decide (is_Some publishedBootcamp)
       && bool_decide (role u <> Some "admin")
    then
      next (ErrorResponse
              ("The user with id: " +:+ _id u
               +:+ " has already published a bootcamp") 400)
    else
      bootcamp ← BootcampModel.create env body;
      res_json res 201 None [("success", JBool true); ("data", JBootcamp bootcamp)]).

(** Delete Bootcamp.  DELETE /api/v1/bootcamps/:id *)
Definition deleteBootcamp (env : Env) (req : Request) : World -> World :=
  asyncHandler (fun res =>
    bootcamp ← BootcampModel.findByIdAndDelete (params_id req);
    match bootcamp with
    | None =>
        next (ErrorResponse
                ("Bootcamp not found with id of: " +:+ params_id req) 404)
    | Some bootcamp =>
        (* Make sure user is bootcamp owner *)
        u ← req_user req;
        if bool_decide (bootcamp_user bootcamp <> _id u)
           && bool_decide (role u <> Some "admin")
        then
          next (ErrorResponse
                  ("User " +:+ _id u
                   +:+ " is not authorized to delete this bootcamp") 401)
        else
          BootcampModel.remove bootcamp;;
          res_json res 200 None [("success", JBool true); ("data", JEmptyObject)]
    end).

End Bootcamps.

(** *** The other bootcamp handlers *)

(** An entry of [req.files]. *)
Record UploadedFile := mkUploadedFile {
  file_name : string;
  file_mimetype : string;
  file_size : Z;
}.

(** What the upload handler obtains from outside: the two settings of
    [process.env] it reads ([MAX_FILE_UPLOAD] as the text the template
    literal prints and as the number the comparison sees, none when the
    text is no number), [path.parse(name).ext], and the outcome of
    [file.mv(path, callback)]. *)
Record UploadEnv := mkUploadEnv {
  MAX_FILE_UPLOAD : string;
  MAX_FILE_UPLOAD_number : option Z;
  FILE_UPLOAD_PATH : string;
  path_parse_ext : string -> string;
  file_mv : string -> UploadedFile -> option JsError;
}.

(** The files moved into place, newest last: the path and the file. *)
Definition Disk : Type := list (string * UploadedFile).

(** A handler that also moves files. *)
Definition MU (A : Type) : Type := World * Disk -> Completion A * (World * Disk).

#[global] Instance MU_ret : MRet MU := fun A a s => (Normal a, s).
#[global] Instance MU_bind : MBind MU :=
  fun A B k m s =>
    match m s with
    | (Normal a, s') => k a s'
    | (Thrown e, s') => (Thrown e, s')
    end.

Definition lift {A} (m : M A) : MU A :=
  fun s => let '(c, w') := m (fst s) in (c, (w', snd s)).

(** [asyncHandler] around a handler that also moves files. *)
Definition asyncHandlerU (fn : Res -> MU unit) (s : World * Disk)
  : World * Disk :=
  match fn (length (trace (fst s))) s with
  | (Normal _, s') => s'
  | (Thrown e, s') => snd (lift (next e) s')
  end.

(** [file.mv(path, callback)]: the file is put at [path] and the
    callback gets no error, or nothing is written and the callback gets
    the error. *)
Definition mv (uenv : UploadEnv) (path : string) (file : UploadedFile)
    (callback : option JsError -> MU unit) : MU unit :=
  fun s =>
    match file_mv uenv path file with
    | None => callback None (fst s, snd s ++ [(path, file)])
    | Some err => callback (Some err) s
    end.

Section MoreBootcamps.
Context `{UpdateSchema}.

(** Get Single Bootcamp.  GET /api/v1/bootcamps/:id *)
Definition getBootcamp (req : Request) : World -> World :=
  asyncHandler (fun res =>
    bootcamp ← BootcampModel.findById (params_id req);
    match bootcamp with
    | None =>
        next (ErrorResponse
                ("Bootcamp not found with id of: " +:+ params_id req) 404)
    | Some bootcamp =>
        res_json res 200 None [("success", JBool true); ("data", JBootcamp bootcamp)]
    end).

(** [res.status(200).json({ success: true, data: bootcamp })] for the
    value [findByIdAndUpdate] resolved to, a document: [updateBootcamp]
    has found the document before, and nothing runs in between. *)
Definition res_updated (res : Res) (bootcamp : option Bootcamp) : M unit :=
  match bootcamp with
  | Some b => res_json res 200 None [("success", JBool true); ("data", JBootcamp b)]
  | None => ret tt
  end.

(** Update Bootcamp.  PUT /api/v1/bootcamps/:id *)
Definition updateBootcamp (req : Request) : World -> World :=
  asyncHandler (fun res =>
    bootcamp ← BootcampModel.findById (params_id req);
    match bootcamp with
    | None =>
        next (ErrorResponse
                ("Bootcamp not found with id of: " +:+ params_id req) 404)
    | Some bootcamp =>
        (* Make sure user is bootcamp owner *)
        u ← req_user req;
        if bool_decide (bootcamp_user bootcamp <> _id u)
           && bool_decide (role u <> Some "admin")
        then
          next (ErrorResponse
                  ("User " +:+ _id u
                   +:+ " is not authorized to update this bootcamp") 401)
        else
          bootcamp ← BootcampModel.findByIdAndUpdate (params_id req) (body req) true;
          res_updated res bootcamp
    end).

(** Upload Photo for bootcamp.  PUT /api/v1/bootcamps/:id/photo

    [files] is [req.files]: absent, or an object whose [file] entry is
    absent or a file. *)
Definition bootcampPhotoUpload (uenv : UploadEnv) (req : Request)
    (files : option (option UploadedFile)) : World * Disk -> World * Disk :=
  asyncHandlerU (fun res =>
    bootcamp ← lift (BootcampModel.findById (params_id req));
    match bootcamp with
    | None =>
        lift (next (ErrorResponse
                      ("Bootcamp not found with id of: " +:+ params_id req) 404))
    | Some bootcamp =>
        (* Make sure user is bootcamp owner *)
        u ← lift (req_user req);
        if bool_decide (bootcamp_user bootcamp <> _id u)
           && bool_decide (role u <> Some "admin")
        then
          lift (next (ErrorResponse
                        ("User " +:+ _id u
                         +:+ " is not authorized to update this bootcamp") 401))
        else
          match files with
          | None => lift (next (ErrorResponse "Please upload a file" 400))
          | Some None =>
              lift (throw (Error "TypeError: Cannot read property 'mimetype' of undefined"))
          | Some (Some file) =>
              (* Make sure that the image is a photo *)
              if negb (String.prefix "image" (file_mimetype file))
              then lift (next (ErrorResponse "Please upload a image file" 400))
              else
                (* Check file size *)
                if match MAX_FILE_UPLOAD_number uenv with
                   | Some limit => bool_decide (limit < file_size file)
                   | None => false
                   end
                then
                  lift (next (ErrorResponse
                                ("Please upload a image less than "
                                 +:+ MAX_FILE_UPLOAD uenv) 400))
                else
                  (* Create custom filename *)
                  let file :=
                    mkUploadedFile
                      ("photo_" +:+ bootcamp_id bootcamp
                       +:+ path_parse_ext uenv (file_name file))
                      (file_mimetype file) (file_size file) in
                  mv uenv (FILE_UPLOAD_PATH uenv +:+ "/" +:+ file_name file) file
                     (fun err =>
                        match err with
                        | Some err =>
                            lift (console_log err;;
                                  next (ErrorResponse "Problem with file upload" 500))
                        | None =>
                            lift (BootcampModel.findByIdAndUpdate (params_id req)
                                    {[ "photo" := file_name file ]} false;;
                                  res_json res 200 None
                                    [("success", JBool true);
                                     ("data", JString (file_name file))])
                        end)
          end
    end).

End MoreBootcamps.


(** * Vocabulary of the statements *)

(** The world after a handler that did nothing but call [next(err)]. *)
Definition rejected (e : JsError) (w : World) : World :=
  mkWorld (users w) (bootcamps w) (trace w ++ [Next e]).

(** The events a handler appended to the trace it started from. *)
Definition events_since (w w' : World) : list Event :=
  drop (length (trace w)) (trace w').

(** The answers among some events. *)
Definition responses (es : list Event) : list Event := List.filter is_response es.

Section Vocabulary.
Context `{Crypto}.


(** The document [resetPassword] hands to [save] for the user it found. *)
Definition reset_edit (pw : option string) (u : User) : User :=
  set_resetPasswordExpire None
    (set_resetPasswordToken None
       (set_password pw (UserModel.project false u))).

(** The event of [sendTokenResponse(user, statusCode, res)]. *)
Definition token_response (env : Env) (u : User) (statusCode : Z) : Event :=
  ResJson statusCode
    (Some ("token", UserModel.getSignedJwtToken u,
           mkCookieOptions
             (now env + JWT_COOKIE_EXPIRE env * 24 * 60 * 60 * 1000) true
             (bool_decide (NODE_ENV env = "production"))))
    [("success", JBool true);
     ("token", JString (UserModel.getSignedJwtToken u))].


(** The document [forgotPassword] saves first for the user it found:
    the hash of the fresh token and its expiry are set. *)
Definition pending (env : Env) (u : User) : User :=
  set_resetPasswordExpire (Some (now env + 10 * 60 * 1000))
    (set_resetPasswordToken (Some (sha256 (randomBytes env)))
       (UserModel.project false u)).

(** The document it saves in its [catch] block. *)
Definition rolled_back (env : Env) (u : User) : User :=
  set_resetPasswordExpire None (set_resetPasswordToken None (pending env u)).

(** The mail it sends. *)
Definition reset_mail (env : Env) (req : Request) (u : User) : Mail :=
  mkMail (email u) "Password reset token"
         (reset_message
            (protocol req +:+ "://" +:+ host req
             +:+ "/api/v1/auth/resetpassword/" +:+ randomBytes env)).

End Vocabulary.


(** [{ success: true, data: 'Email sent' }] with status 200. *)
Definition email_sent : Event :=
  ResJson 200 None [("success", JBool true); ("data", JString "Email sent")].

(** The document [User.create] builds from the body of a request,
    before the pre-save hook. *)
Definition new_user (env : Env) (req : Request) : User :=
  mkUser (newObjectId env) (body req !! "name") (body req !! "email")
         (body req !! "role") (body req !! "password") None None.

(** The document [Bootcamp.create] builds from the body of a request of
    the caller [u]. *)
Definition new_bootcamp (env : Env) (req : Request) (u : User) : Bootcamp :=
  mkBootcamp (newObjectId env) (_id u) (delete "user" (<["user" := _id u]> (body req))).

(** * A small instance

    Stand-ins for the one-way functions and the validators, and a
    collection with one user, on which the statements below are run. *)

Module Sample.

Definition crypto : Crypto :=
  {| sha256 := fun s => "sha256(" +:+ s +:+ ")";
     bcrypt_hash := fun p salt => "$2a$10$" +:+ salt +:+ p;
     bcrypt_compare := fun p h => bool_decide (h = "$2a$10$salt" +:+ p);
     jwt_sign := fun id => "jwt." +:+ id |}.

Definition schema : Schema :=
  {| userValid := fun u =>
       match password u with
       | Some p => bool_decide (6 <= String.length p)%nat
       | None => true
       end;
     bootcampValid := fun _ _ => true |}.

Definition ann : User :=
  mkUser "u1" (Some "Ann") (Some "ann@x.com") (Some "user")
         (Some "$2a$10$saltsecret1") None None.

(** Ann with a reset pending for the token [r4nd0m], issued at time 1000. *)
Definition ann_pending : User :=
  mkUser "u1" (Some "Ann") (Some "ann@x.com") (Some "user")
         (Some "$2a$10$saltsecret1") (Some "sha256(r4nd0m)") (Some 601000).

Definition devworks : Bootcamp := mkBootcamp "b1" "u1" ∅.

Definition world : World := mkWorld [ann] [devworks] [].

Definition world_pending : World := mkWorld [ann_pending] [devworks] [].

(** The mail transport delivers. *)
Definition env : Env :=
  mkEnv 1000 "r4nd0m" "salt" "u2" (fun _ => None) 30 "development".

(** The mail transport throws. *)
Definition env_mail_down : Env :=
  mkEnv 1000 "r4nd0m" "salt" "u2" (fun _ => Some (Error "ECONNREFUSED"))
        30 "development".

Definition request (fields : list (string * string)) (resettoken id : string)
    (caller : option User) : Request :=
  mkRequest (list_to_map fields) id resettoken "http" "localhost:5000" caller.

Definition bob : User :=
  mkUser "u2" (Some "Bob") (Some "bob@x.com") (Some "publisher")
         (Some "$2a$10$saltsecret2") None None.

Definition root : User :=
  mkUser "u1" (Some "Ann") (Some "ann@x.com") (Some "admin")
         (Some "$2a$10$saltsecret1") None None.

(** Ten seconds later. *)
Definition env_later : Env :=
  mkEnv 11000 "0th3r" "pepper" "id3" (fun _ => None) 30 "development".

(** PUT /auth/resetpassword/r4nd0m with a new password. *)
Definition reset_request : Request :=
  request [("password", "newsecret")] "r4nd0m" "" None.



(** The document the reset of Ann's password saves. *)
Definition ann_reset : User :=
  mkUser "u1" (Some "Ann") (Some "ann@x.com") (Some "user")
         (Some "$2a$10$saltnewsecret") None None.

Definition login_request (e p : string) : Request :=
  request [("email", e); ("password", p)] "" "" None.

Definition forgot_request (e : string) : Request :=
  request [("email", e)] "" "" None.

Definition register_request : Request :=
  request [("name", "Bob"); ("email", "bob@x.com"); ("password", "secret2");
           ("role", "publisher")] "" "" None.

(** DELETE /bootcamps/b1 and POST /bootcamps by the given caller. *)
Definition delete_request (caller : User) : Request :=
  request [] "" "b1" (Some caller).

Definition create_request (caller : User) : Request :=
  request [("name", "Second camp")] "" "" (Some caller).

End Sample.

(** * Vocabulary of the further statements *)

(** Two user documents that differ at most in the password and the
    reset fields. *)
Definition same_account (a b : User) : Prop :=
  _id a = _id b /\ name a = name b /\ email a = email b /\ role a = role b.

(** How many bootcamps of a collection a user owns. *)
Definition owned (uid : string) (l : list Bootcamp) : nat :=
  length (List.filter (by_user uid) l).

(** What the cookie and the body of a token response are bound to be:
    a cookie [token] that carries the token of the body, is [httpOnly]
    and is [secure] exactly in production. *)
Definition token_response_shape (env : Env) (e : Event) : Prop :=
  match e with
  | ResJson statusCode cookie b =>
      statusCode = 200
      /\ exists v o,
           cookie = Some ("token", v, o)
           /\ b = [("success", JBool true); ("token", JString v)]
           /\ httpOnly o = true
           /\ (secure o = true <-> NODE_ENV env = "production")
  | _ => True
  end.

(** The file the upload handler moves for the bootcamp [b]: the
    uploaded file under its custom name. *)
Definition photo_file (uenv : UploadEnv) (b : Bootcamp) (file : UploadedFile)
  : UploadedFile :=
  mkUploadedFile
    ("photo_" +:+ bootcamp_id b +:+ path_parse_ext uenv (file_name file))
    (file_mimetype file) (file_size file).

(** The caller may change the bootcamp: its owner, or an admin. *)
Definition may_change (u : User) (b : Bootcamp) : Prop :=
  bootcamp_user b = _id u \/ role u = Some "admin".

(** The upload passes the two checks on the file. *)
Definition acceptable (uenv : UploadEnv) (file : UploadedFile) : Prop :=
  String.prefix "image" (file_mimetype file) = true
  /\ forall limit, MAX_FILE_UPLOAD_number uenv = Some limit ->
                   file_size file <= limit.

(** More of the small instance. *)
Module Sample2.

Definition updates : UpdateSchema :=
  {| bootcampUpdateValid := fun _ body => bool_decide (body !! "name" <> Some "") |}.

(** The text after the last dot, good enough for the names used here. *)
Fixpoint ext_from (s : string) : option string :=
  match s with
  | EmptyString => None
  | String c s' =>
      match ext_from s' with
      | Some e => Some e
      | None => if Ascii.eqb c "."%char then Some (String c s') else None
      end
  end.

Definition uenv : UploadEnv :=
  mkUploadEnv "1000000" (Some 1000000) "./public/uploads"
              (fun n => default "" (ext_from n)) (fun _ _ => None).

(** The disk is full. *)
Definition uenv_disk_full : UploadEnv :=
  mkUploadEnv "1000000" (Some 1000000) "./public/uploads"
              (fun n => default "" (ext_from n))
              (fun _ _ => Some (Error "ENOSPC")).


Definition script : UploadedFile :=
  mkUploadedFile "run.sh" "application/x-sh" 120.

(** PUT /bootcamps/b1 with a new name, PUT /bootcamps/b1/photo and
    GET /bootcamps/:id. *)
Definition update_request (caller : User) : Request :=
  Sample.request [("name", "Devworks 2")] "" "b1" (Some caller).

Definition photo_request (caller : User) : Request :=
  Sample.request [] "" "b1" (Some caller).

Definition get_request (id : string) : Request :=
  Sample.request [] "" id None.

(** A body that names somebody else as the owner. *)
Definition create_request_for_other (caller : User) : Request :=
  Sample.request [("name", "Second camp"); ("user", "u9")] "" "" (Some caller).

(** A collection without bootcamps. *)
Definition world_empty : World := mkWorld [Sample.ann] [] [].

End Sample2.

(** * Properties *)

(** ** Running a handler *)

(** At the start of a request nothing has been sent. *)
Lemma headersSent_start (w : World) : headersSent (length (trace w)) w = false.
Proof. unfold headersSent. by rewrite drop_all. Qed.

Lemma headersSent_mk0 (w : World) us bs :
  headersSent (length (trace w)) (mkWorld us bs (trace w)) = false.
Proof. unfold headersSent. cbn. by rewrite drop_all. Qed.

(** Later on, the response has been sent if the request has answered. *)
Lemma headersSent_mk (w : World) us bs (es : list Event) :
  headersSent (length (trace w)) (mkWorld us bs (trace w ++ es))
  = existsb is_response es.
Proof. unfold headersSent. cbn. by rewrite drop_app_length. Qed.

Ltac run :=
  unfold asyncHandler, mbind, M_bind, mret, M_ret, bind, ret, throw, try_catch,
         next, res_json, console_log, emit, send_email,
         UserModel.findOne, UserModel.save, UserModel.create,
         UserModel.matchPassword, UserModel.getResetPasswordToken,
         BootcampModel.findOne, BootcampModel.findByIdAndDelete,
         BootcampModel.remove, BootcampModel.create, req_user;
  cbn [fst snd users bootcamps trace fmap option_fmap option_map];
  repeat progress
    (rewrite <- ?app_assoc;
     rewrite ?headersSent_start, ?headersSent_mk0, ?headersSent_mk;
     cbn [app existsb is_response orb fst snd users bootcamps trace]).

(** Case analysis on the membership in a list written out. *)
Ltac members H :=
  repeat (apply elem_of_cons in H as [->|H]); try (by apply elem_of_nil in H).

(** ** Lists of documents *)

Lemma find_elem_of {A} (f : A -> bool) (l : list A) (x : A) :
  List.find f l = Some x -> x ∈ l /\ f x = true.
Proof.
  intros Hf. apply find_some in Hf as [Hin Hx].
  split; [by apply list_elem_of_In | done].
Qed.

Lemma find_None_elem_of {A} (f : A -> bool) (l : list A) :
  List.find f l = None <-> forall x, x ∈ l -> f x = false.
Proof.
  split.
  - intros Hf x Hx. apply (find_none f l Hf). by apply list_elem_of_In.
  - induction l as [|a l IH]; intros Hall; [done|]. simpl.
    rewrite (Hall a) by left. apply IH. intros x Hx. apply Hall. by right.
Qed.

(** A query that cannot tell [g x] from [x] finds in [map g l] the image
    of what it finds in [l]. *)
Lemma find_map_invariant {A} (f : A -> bool) (g : A -> A) (l : list A) :
  (forall x, f (g x) = f x) ->
  List.find f (g <$> l) = g <$> List.find f l.
Proof.
  intros Hinv. induction l as [|a l IH]; [done|]. simpl.
  rewrite Hinv. by destruct (f a).
Qed.

Lemma events_since_app (w w' : World) (es : list Event) :
  trace w' = trace w ++ es -> events_since w w' = es.
Proof. intros Ht. unfold events_since. rewrite Ht. apply drop_app_length. Qed.

Lemma events_since_mk (w : World) us bs (es : list Event) :
  events_since w (mkWorld us bs (trace w ++ es)) = es.
Proof. by apply events_since_app. Qed.

Lemma events_since_rejected (w : World) (e : JsError) :
  events_since w (rejected e w) = [Next e].
Proof. by apply events_since_app. Qed.

Section Queries.
Context `{Crypto}.



End Queries.

(** ** Saving a user document *)

Section Saving.
Context `{Crypto}.

Lemma pre_save_id salt d : _id (UserModel.pre_save salt d) = _id d.
Proof. unfold UserModel.pre_save. by destruct (password d). Qed.


(** After a write of [d], whatever the collection holds under the [_id]
    of [d] carries the reset fields of [d]. *)
Lemma write_reset_fields d l v :
  v ∈ UserModel.write d l -> _id v = _id d ->
  resetPasswordToken v = resetPasswordToken d
  /\ resetPasswordExpire v = resetPasswordExpire d.
Proof.
  unfold UserModel.write. intros Hin Hid.
  apply list_elem_of_fmap in Hin as (s & -> & Hs).
  case_bool_decide as Hs'; [done|]. by destruct Hs'.
Qed.


(** A write does not change what a query by e-mail finds, up to the
    written fields. *)
Lemma find_by_email_write e d l u :
  List.find (by_email e) l = Some u -> _id d = _id u ->
  List.find (by_email e) (UserModel.write d l) = Some (UserModel.merge d u).
Proof.
  intros Hfind Hid. unfold UserModel.write.
  rewrite find_map_invariant.
  - rewrite Hfind. cbn. by rewrite Hid, bool_decide_eq_true_2.
  - intros s. by case_bool_decide.
Qed.


End Saving.

(** ** Reset password *)

Section ResetPassword.
Context `{Crypto, Schema}.

(** The handler on a request whose token matches no user. *)
Lemma resetPassword_no_match env req w :
  List.find (by_reset_token (sha256 (params_resettoken req)) (now env))
            (users w) = None ->
  resetPassword env req w = rejected (ErrorResponse "Invalid Token" 400) w.
Proof.
  intros Hfind. unfold resetPassword. run. by rewrite Hfind.
Qed.

(** The handler on a request whose token matches [u], when the edited
    document passes validation. *)
Lemma resetPassword_match env req w u :
  List.find (by_reset_token (sha256 (params_resettoken req)) (now env))
            (users w) = Some u ->
  userValid (reset_edit (body req !! "password") u) = true ->
  let d := UserModel.pre_save (genSalt env)
             (reset_edit (body req !! "password") u) in
  resetPassword env req w =
    mkWorld (UserModel.write d (users w)) (bootcamps w)
            (trace w ++ [UserSaved d; token_response env d 200]).
Proof.
  intros Hfind Hvalid d. unfold resetPassword. run. rewrite Hfind. run.
  fold (reset_edit (body req !! "password") u). rewrite Hvalid. cbn.
  unfold sendTokenResponse, token_response. run.
  by run.
Qed.

(** When validation refuses the edited document the handler forwards
    the validation error and writes nothing. *)
Lemma resetPassword_invalid env req w u :
  List.find (by_reset_token (sha256 (params_resettoken req)) (now env))
            (users w) = Some u ->
  userValid (reset_edit (body req !! "password") u) = false ->
  resetPassword env req w
  = rejected (ValidationError "User validation failed") w.
Proof.
  intros Hfind Hvalid. unfold resetPassword. run. rewrite Hfind. run.
  fold (reset_edit (body req !! "password") u). by rewrite Hvalid.
Qed.





End ResetPassword.

(** ** Forgot password *)

Section ForgotPassword.
Context `{Crypto, Schema}.

Lemma pending_pre_save env u :
  UserModel.pre_save (genSalt env) (pending env u) = pending env u.
Proof. done. Qed.

Lemma rolled_back_pre_save env u :
  UserModel.pre_save (genSalt env) (rolled_back env u) = rolled_back env u.
Proof. done. Qed.

(** No user has the e-mail of the request. *)
Lemma forgotPassword_unknown env req w :
  List.find (by_email (body req !! "email")) (users w) = None ->
  forgotPassword env req w
  = rejected (ErrorResponse ("There is no user with the email "
                             +:+ render (body req !! "email")) 404) w.
Proof.
  intros Hfind. unfold forgotPassword. run. by rewrite Hfind.
Qed.

(** The user is found and the mail goes out: the handler answers inside
    its [try] block, falls out of the [try] statement, and its second
    answer, on the response already sent, throws. *)
Lemma forgotPassword_mail_sent env req w u :
  List.find (by_email (body req !! "email")) (users w) = Some u ->
  sendEmail env (reset_mail env req u) = None ->
  forgotPassword env req w =
    mkWorld (UserModel.write (pending env u) (users w)) (bootcamps w)
            (trace w ++ [UserSaved (pending env u);
                         SendEmail (reset_mail env req u);
                         email_sent;
                         Next (Error "Cannot set headers after they are sent to the client")]).
Proof.
  intros Hfind Hmail. unfold forgotPassword. run. rewrite Hfind. run.
  fold (pending env u). rewrite pending_pre_save. cbn [andb].
  change (mkMail _ _ _) with (reset_mail env req u). rewrite Hmail.
  by run.
Qed.

(** The user is found and the mail transport throws [err]. *)
Lemma forgotPassword_mail_failed env req w u err :
  List.find (by_email (body req !! "email")) (users w) = Some u ->
  sendEmail env (reset_mail env req u) = Some err ->
  forgotPassword env req w =
    mkWorld (UserModel.write (rolled_back env u)
               (UserModel.write (pending env u) (users w)))
            (bootcamps w)
            (trace w ++ [UserSaved (pending env u);
                         SendEmail (reset_mail env req u);
                         ConsoleLog err;
                         UserSaved (rolled_back env u);
                         Next (ErrorResponse "Email could not be sent" 500)]).
Proof.
  intros Hfind Hmail. unfold forgotPassword. run. rewrite Hfind. run.
  fold (pending env u). rewrite pending_pre_save. cbn [andb].
  change (mkMail _ _ _) with (reset_mail env req u). rewrite Hmail.
  cbn. fold (rolled_back env u). by run.
Qed.

(** C8.  When no user has the e-mail address sent in the request, the
    handler calls [next] with an error of status 404 whose message is
    "There is no user with the email " followed by that address, and
    does nothing else. *)
Theorem forgotPassword_unknown_email_404 env req w e :
  body req !! "email" = Some e ->
  (forall u, u ∈ users w -> email u <> Some e) ->
  forgotPassword env req w
  = rejected (ErrorResponse ("There is no user with the email " +:+ e) 404) w.
Proof.
  intros He Hnone. rewrite forgotPassword_unknown; rewrite He; [done|].
  apply find_None_elem_of. intros u Hu. unfold by_email.
  apply bool_decide_eq_false_2. by apply Hnone.
Qed.

(** C3.  When the user is found and the mail transport fails, the
    handler ends by calling [next] with the error "Email could not be
    sent" of status 500, having answered nothing on [res]; its last
    write is the roll-back, after which the user found by that e-mail,
    and whatever else the collection stores under the same [_id], has
    neither reset token nor expiry. *)
Theorem forgotPassword_mail_failure_rolls_back env req w u err :
  List.find (by_email (body req !! "email")) (users w) = Some u ->
  sendEmail env (reset_mail env req u) = Some err ->
  let w' := forgotPassword env req w in
  events_since w w'
  = [UserSaved (pending env u); SendEmail (reset_mail env req u);
     ConsoleLog err; UserSaved (rolled_back env u);
     Next (ErrorResponse "Email could not be sent" 500)]
  /\ responses (events_since w w') = []
  /\ (exists v, List.find (by_email (body req !! "email")) (users w') = Some v
                /\ _id v = _id u
                /\ resetPasswordToken v = None
                /\ resetPasswordExpire v = None)
  /\ (forall v, v ∈ users w' -> _id v = _id u ->
                resetPasswordToken v = None /\ resetPasswordExpire v = None).
Proof.
  intros Hfind Hmail w'. subst w'.
  rewrite (forgotPassword_mail_failed env req w u err Hfind Hmail).
  rewrite events_since_mk. cbn [users].
  split; [done|]. split; [done|]. split.
  - eexists. split.
    + apply (find_by_email_write _ _ _ (UserModel.merge (pending env u) u));
        [|done].
      by apply find_by_email_write.
    + done.
  - intros v Hv Hid.
    by destruct (write_reset_fields (rolled_back env u) _ v Hv Hid) as [-> ->].
Qed.


(** C6.  For a request that finds its user and whose mail goes out, the
    handler answers once, 200 with "Email sent", and no other answer
    is sent for the request.  The statement after the [try] then
    answers on the response already sent, which throws, and the error
    goes to [next]. *)
Theorem forgotPassword_answers_once env req w u :
  List.find (by_email (body req !! "email")) (users w) = Some u ->
  sendEmail env (reset_mail env req u) = None ->
  responses (events_since w (forgotPassword env req w)) = [email_sent]
  /\ events_since w (forgotPassword env req w)
     = [UserSaved (pending env u); SendEmail (reset_mail env req u);
        email_sent;
        Next (Error "Cannot set headers after they are sent to the client")].
Proof.
  intros Hfind Hmail.
  rewrite (forgotPassword_mail_sent env req w u Hfind Hmail).
  by rewrite events_since_mk.
Qed.

End ForgotPassword.

(** ** Login *)

Section Login.
Context `{Crypto}.

Lemma login_missing env req w :
  truthy (body req !! "email") = false
  \/ truthy (body req !! "password") = false ->
  login env req w
  = rejected (ErrorResponse "Please provide a email and password" 400) w.
Proof.
  intros Hmiss. unfold login. run.
  by destruct Hmiss as [-> | ->]; rewrite ?orb_true_r.
Qed.

Lemma login_unknown_email env req w :
  truthy (body req !! "email") = true ->
  truthy (body req !! "password") = true ->
  List.find (by_email (body req !! "email")) (users w) = None ->
  login env req w = rejected (ErrorResponse "Invalid credentials" 401) w.
Proof.
  intros He Hp Hfind. unfold login. run. rewrite He, Hp. cbn [negb orb].
  by rewrite Hfind.
Qed.

Lemma login_wrong_password env req w u p h :
  truthy (body req !! "email") = true ->
  body req !! "password" = Some p -> p <> "" ->
  List.find (by_email (body req !! "email")) (users w) = Some u ->
  password u = Some h ->
  bcrypt_compare p h = false ->
  login env req w = rejected (ErrorResponse "Invalid credentials" 401) w.
Proof.
  intros He Hp Hne Hfind Hh Hcmp. unfold login. run.
  rewrite He, Hp. cbn [truthy]. rewrite bool_decide_eq_true_2 by done.
  cbn [negb orb]. rewrite Hfind. run. unfold UserModel.project.
  by rewrite Hh, Hcmp.
Qed.

Lemma login_match env req w u p h :
  truthy (body req !! "email") = true ->
  body req !! "password" = Some p -> p <> "" ->
  List.find (by_email (body req !! "email")) (users w) = Some u ->
  password u = Some h ->
  bcrypt_compare p h = true ->
  login env req w
  = mkWorld (users w) (bootcamps w) (trace w ++ [token_response env u 200]).
Proof.
  intros He Hp Hne Hfind Hh Hcmp. unfold login. run.
  rewrite He, Hp. cbn [truthy]. rewrite bool_decide_eq_true_2 by done.
  cbn [negb orb]. rewrite Hfind. run. unfold UserModel.project.
  rewrite Hh, Hcmp. cbn [negb]. unfold sendTokenResponse, token_response.
  by run.
Qed.

(** C2.  A login request that lacks the e-mail or the password is
    refused with status 400.  A request [req1] whose e-mail belongs to
    no user and a request [req2] whose e-mail belongs to a user but
    whose password does not verify against the stored hash are refused
    in the same way: both leave the collections alone and call [next]
    with the one error "Invalid credentials" of status 401, so that the
    two runs are equal event for event. *)
Theorem login_failures_indistinguishable env w req1 req2 e1 p1 e2 p2 u h :
  body req1 !! "email" = Some e1 -> e1 <> "" ->
  body req1 !! "password" = Some p1 -> p1 <> "" ->
  body req2 !! "email" = Some e2 -> e2 <> "" ->
  body req2 !! "password" = Some p2 -> p2 <> "" ->
  (forall v, v ∈ users w -> email v <> Some e1) ->
  List.find (by_email (Some e2)) (users w) = Some u ->
  password u = Some h ->
  bcrypt_compare p2 h = false ->
  (forall req,
     body req !! "email" = None \/ body req !! "password" = None ->
     login env req w
     = rejected (ErrorResponse "Please provide a email and password" 400) w)
  /\ login env req1 w = rejected (ErrorResponse "Invalid credentials" 401) w
  /\ login env req2 w = rejected (ErrorResponse "Invalid credentials" 401) w
  /\ events_since w (login env req1 w) = events_since w (login env req2 w).
Proof.
  intros He1 Hne1 Hp1 Hnp1 He2 Hne2 Hp2 Hnp2 Hnone Hfind Hh Hcmp.
  assert (login env req1 w
          = rejected (ErrorResponse "Invalid credentials" 401) w) as H1.
  { apply login_unknown_email.
    - rewrite He1. cbn. by apply bool_decide_eq_true_2.
    - rewrite Hp1. cbn. by apply bool_decide_eq_true_2.
    - rewrite He1. apply find_None_elem_of. intros v Hv.
      apply bool_decide_eq_false_2. by apply Hnone. }
  assert (login env req2 w
          = rejected (ErrorResponse "Invalid credentials" 401) w) as H2.
  { apply (login_wrong_password env req2 w u p2 h); try done.
    - rewrite He2. cbn. by apply bool_decide_eq_true_2.
    - by rewrite He2. }
  split; [|by rewrite H1, H2].
  intros req Hmiss. apply login_missing.
  by destruct Hmiss as [-> | ->]; [left|right].
Qed.

End Login.

(** ** Register *)

Section Register.
Context `{Crypto, Schema}.

(** The handler on a body that passes validation, carries a password
    and an e-mail address no user has yet. *)
Lemma register_created env req w p :
  body req !! "password" = Some p ->
  userValid (new_user env req) = true ->
  existsb (by_email (body req !! "email")) (users w) = false ->
  let d := set_password (Some (bcrypt_hash p (genSalt env))) (new_user env req) in
  register env req w
  = mkWorld (users w ++ [d]) (bootcamps w)
            (trace w ++ [UserCreated d; token_response env d 200]).
Proof.
  intros Hp Hvalid Hfresh d. unfold register. run.
  fold (new_user env req). rewrite Hvalid. cbn [negb].
  rewrite Hp at 1. rewrite Hfresh.
  unfold UserModel.pre_save. replace (password (new_user env req)) with (Some p).
  fold d. cbn. unfold sendTokenResponse, token_response. run.
  by run.
Qed.

(** Whatever the body, the handler writes at most one document, and the
    password of that document went through the hash. *)
Lemma register_users env req w :
  users (register env req w) = users w
  \/ exists p, body req !! "password" = Some p
               /\ users (register env req w)
                  = users w ++ [set_password (Some (bcrypt_hash p (genSalt env)))
                                             (new_user env req)].
Proof.
  unfold register. run. fold (new_user env req).
  destruct (userValid (new_user env req)); cbn [negb]; [|by left].
  destruct (body req !! "password") as [p|] eqn:Hp; [|by left].
  destruct (existsb _ _); [by left|].
  right. exists p. split; [done|]. unfold sendTokenResponse. run.
  unfold UserModel.pre_save, new_user. rewrite Hp. done.
Qed.

(** C7.  For a registration whose fields pass the validators of the
    user schema and whose e-mail address is not taken, the handler
    stores one new user, whose password field is the salted hash of the
    supplied password and, the hash of a password never being that
    password, differs from the plain text; nothing else is written. *)
Theorem register_stores_hashed_password env req w p :
  (forall salt, bcrypt_hash p salt <> p) ->
  body req !! "password" = Some p ->
  userValid (new_user env req) = true ->
  (forall u, u ∈ users w -> email u <> body req !! "email") ->
  exists d,
    users (register env req w) = users w ++ [d]
    /\ email d = body req !! "email"
    /\ password d = Some (bcrypt_hash p (genSalt env))
    /\ password d <> Some p
    /\ events_since w (register env req w)
       = [UserCreated d; token_response env d 200].
Proof.
  intros Hhash Hp Hvalid Hfresh.
  assert (existsb (by_email (body req !! "email")) (users w) = false) as Hex.
  { apply not_true_is_false. intros Hex.
    apply existsb_exists in Hex as (u & Hin & Hu).
    apply bool_decide_eq_true in Hu.
    by apply (Hfresh u); [apply list_elem_of_In|]. }
  rewrite (register_created env req w p Hp Hvalid Hex).
  eexists. split; [done|]. split; [done|]. split; [done|].
  split; [|by rewrite events_since_mk].
  cbn. intros [= Heq]. by apply (Hhash (genSalt env)).
Qed.

End Register.

(** ** Bootcamps *)

Lemma delete_first_split (f : Bootcamp -> bool) (l : list Bootcamp) (b : Bootcamp) :
  List.find f l = Some b ->
  exists l1 l2, l = l1 ++ b :: l2
                /\ BootcampModel.delete_first f l = l1 ++ l2
                /\ forall x, x ∈ l1 -> f x = false.
Proof.
  induction l as [|a l IH]; [done|]. cbn.
  destruct (f a) eqn:Ha.
  - intros [= ->]. exists [], l. split; [done|]. split; [done|].
    intros x Hx. by apply elem_of_nil in Hx.
  - intros Hfind. destruct (IH Hfind) as (l1 & l2 & -> & -> & Hl1).
    exists (a :: l1), l2. split; [done|]. split; [done|].
    intros x Hx. apply elem_of_cons in Hx as [-> | Hx]; [done|by apply Hl1].
Qed.

Section BootcampProperties.
Context `{Schema}.

(** The handler on a request of a caller who neither owns the bootcamp
    nor is an admin. *)
Lemma deleteBootcamp_unauthorized env req w b u :
  List.find (by_id (params_id req)) (bootcamps w) = Some b ->
  user req = Some u ->
  bootcamp_user b <> _id u ->
  role u <> Some "admin" ->
  deleteBootcamp env req w
  = mkWorld (users w)
            (BootcampModel.delete_first (by_id (params_id req)) (bootcamps w))
            (trace w ++ [BootcampDeleted b;
                         Next (ErrorResponse
                                 ("User " +:+ _id u
                                  +:+ " is not authorized to delete this bootcamp")
                                 401)]).
Proof.
  intros Hfind Hu Howner Hrole. unfold deleteBootcamp. run.
  rewrite Hfind, Hu. cbn.
  rewrite !bool_decide_eq_true_2 by done. cbn.
  by run.
Qed.

(** C9.  A delete request for an existing bootcamp by a caller who is
    neither its owner nor an admin is answered through [next] with an
    error of status 401, and yet the collection has lost the bootcamp:
    the delete precedes the ownership check.  With unique ids, no
    bootcamp of that id is left. *)
Theorem deleteBootcamp_deletes_before_authorizing env req w b u :
  List.find (by_id (params_id req)) (bootcamps w) = Some b ->
  user req = Some u ->
  bootcamp_user b <> _id u ->
  role u <> Some "admin" ->
  let w' := deleteBootcamp env req w in
  events_since w w'
  = [BootcampDeleted b;
     Next (ErrorResponse
             ("User " +:+ _id u +:+ " is not authorized to delete this bootcamp")
             401)]
  /\ (exists l1 l2, bootcamps w = l1 ++ b :: l2 /\ bootcamps w' = l1 ++ l2)
  /\ (NoDup (bootcamp_id <$> bootcamps w) ->
      forall b', b' ∈ bootcamps w' -> bootcamp_id b' <> params_id req).
Proof.
  intros Hfind Hu Howner Hrole w'. subst w'.
  rewrite (deleteBootcamp_unauthorized env req w b u Hfind Hu Howner Hrole).
  rewrite events_since_mk. cbn [bootcamps].
  destruct (delete_first_split _ _ _ Hfind) as (l1 & l2 & Hl & Hdel & Hl1).
  destruct (find_elem_of _ _ _ Hfind) as [_ Hb].
  apply bool_decide_eq_true in Hb.
  split; [done|]. split; [by exists l1, l2|].
  rewrite Hdel, Hl. rewrite fmap_app, fmap_cons.
  intros Hnodup b' Hb' Hid.
  apply NoDup_app in Hnodup as (_ & Hdisj & Hnodup).
  apply NoDup_cons in Hnodup as [Hnotin _].
  apply elem_of_app in Hb' as [Hb'|Hb'].
  - apply (Hdisj (bootcamp_id b')).
    + by apply list_elem_of_fmap_2.
    + rewrite Hid, <- Hb. by left.
  - apply Hnotin. rewrite Hb, <- Hid. by apply list_elem_of_fmap_2.
Qed.

(** The handler on a request of a caller who is no admin and owns a
    bootcamp already. *)
Lemma createBootcamp_second env req w u b :
  user req = Some u ->
  role u <> Some "admin" ->
  List.find (by_user (_id u)) (bootcamps w) = Some b ->
  createBootcamp env req w
  = rejected (ErrorResponse
                ("The user with id: " +:+ _id u
                 +:+ " has already published a bootcamp") 400) w.
Proof.
  intros Hu Hrole Hfind. unfold createBootcamp. run.
  rewrite Hu. cbn. rewrite Hfind.
  by rewrite !bool_decide_eq_true_2.
Qed.

(** The handler on a request of an admin, whatever the admin owns. *)
Lemma createBootcamp_admin env req w u :
  user req = Some u ->
  role u = Some "admin" ->
  createBootcamp env req w
  = if bootcampValid (bootcamps w) (new_bootcamp env req u)
    then mkWorld (users w) (bootcamps w ++ [new_bootcamp env req u])
                 (trace w ++ [BootcampCreated (new_bootcamp env req u);
                              ResJson 201 None
                                [("success", JBool true);
                                 ("data", JBootcamp (new_bootcamp env req u))]])
    else rejected (ValidationError "Bootcamp validation failed") w.
Proof.
  intros Hu Hrole. unfold createBootcamp. run.
  rewrite Hu. cbn.
  rewrite (bool_decide_eq_false_2 (role u <> Some "admin")) by (by intros []).
  rewrite andb_false_r. run. rewrite lookup_insert_eq.
  fold (new_bootcamp env req u).
  destruct (bootcampValid _ _); [|done].
  cbn. by run.
Qed.

(** C10.  A caller who is not an admin and owns a bootcamp already is
    refused with status 400, and the collections stay as they were.  An
    admin is never refused on that ground: whether or not the admin
    owns bootcamps, a body the schema accepts is inserted and answered
    with 201. *)
Theorem createBootcamp_one_per_publisher env req w u :
  user req = Some u ->
  (role u <> Some "admin" ->
   (exists b, b ∈ bootcamps w /\ bootcamp_user b = _id u) ->
   createBootcamp env req w
   = rejected (ErrorResponse
                 ("The user with id: " +:+ _id u
                  +:+ " has already published a bootcamp") 400) w)
  /\ (role u = Some "admin" ->
      bootcampValid (bootcamps w) (new_bootcamp env req u) = true ->
      bootcamps (createBootcamp env req w)
      = bootcamps w ++ [new_bootcamp env req u]
      /\ events_since w (createBootcamp env req w)
         = [BootcampCreated (new_bootcamp env req u);
            ResJson 201 None
              [("success", JBool true);
               ("data", JBootcamp (new_bootcamp env req u))]]).
Proof.
  intros Hu. split.
  - intros Hrole (b & Hin & Hb).
    destruct (List.find (by_user (_id u)) (bootcamps w)) as [b'|] eqn:Hfind.
    + by apply (createBootcamp_second env req w u b').
    + pose proof (proj1 (find_None_elem_of _ _) Hfind b Hin) as Hno.
      unfold by_user in Hno. by rewrite bool_decide_eq_true_2 in Hno.
  - intros Hrole Hvalid.
    rewrite (createBootcamp_admin env req w u Hu Hrole), Hvalid.
    by rewrite events_since_mk.
Qed.

End BootcampProperties.

(** * The properties on the small instance *)

Section Instances.
#[local] Existing Instance Sample.crypto.
#[local] Existing Instance Sample.schema.

(** The scenarios of the specification. *)
Example register_then_login :
  let w1 := register Sample.env Sample.register_request Sample.world in
  events_since w1 (login Sample.env_later (Sample.login_request "bob@x.com" "secret2") w1)
  = [token_response Sample.env_later Sample.bob 200]
  /\ events_since w1 (login Sample.env_later (Sample.login_request "bob@x.com" "wrong") w1)
     = [Next (ErrorResponse "Invalid credentials" 401)].
Proof. split; vm_compute; reflexivity. Qed.

Example forgot_then_reset_then_replay :
  let w1 := forgotPassword Sample.env (Sample.forgot_request "ann@x.com") Sample.world in
  let w2 := resetPassword Sample.env Sample.reset_request w1 in
  let w3 := resetPassword Sample.env_later Sample.reset_request w2 in
  users w1 = [Sample.ann_pending]
  /\ users w2 = [Sample.ann_reset]
  /\ events_since w2 w3 = [Next (ErrorResponse "Invalid Token" 400)].
Proof. repeat split; vm_compute; reflexivity. Qed.

Example reset_after_expiry :
  let env_expired :=
    mkEnv 601000 "0th3r" "pepper" "id3" (fun _ => None) 30 "development" in
  resetPassword env_expired Sample.reset_request Sample.world_pending
  = rejected (ErrorResponse "Invalid Token" 400) Sample.world_pending.
Proof. vm_compute. reflexivity. Qed.




(** C3 on the instance: Ann asks for a reset while the mail transport
    is down. *)
Lemma forgotPassword_mail_failure_rolls_back_witness :
  let w' := forgotPassword Sample.env_mail_down
              (Sample.forgot_request "ann@x.com") Sample.world in
  events_since Sample.world w'
  = [UserSaved (pending Sample.env_mail_down Sample.ann);
     SendEmail (reset_mail Sample.env_mail_down
                  (Sample.forgot_request "ann@x.com") Sample.ann);
     ConsoleLog (Error "ECONNREFUSED");
     UserSaved (rolled_back Sample.env_mail_down Sample.ann);
     Next (ErrorResponse "Email could not be sent" 500)]
  /\ responses (events_since Sample.world w') = []
  /\ (exists v, List.find (by_email (Some "ann@x.com")) (users w') = Some v
                /\ _id v = "u1"
                /\ resetPasswordToken v = None
                /\ resetPasswordExpire v = None)
  /\ (forall v, v ∈ users w' -> _id v = "u1" ->
                resetPasswordToken v = None /\ resetPasswordExpire v = None).
Proof.
  apply (forgotPassword_mail_failure_rolls_back
           Sample.env_mail_down (Sample.forgot_request "ann@x.com")
           Sample.world Sample.ann (Error "ECONNREFUSED")).
  - vm_compute. reflexivity.
  - reflexivity.
Defined.


(** C6 on the instance: Ann asks for a reset and the mail goes out. *)
Lemma forgotPassword_answers_once_witness :
  responses
    (events_since Sample.world
       (forgotPassword Sample.env (Sample.forgot_request "ann@x.com")
          Sample.world))
  = [email_sent]
  /\ events_since Sample.world
       (forgotPassword Sample.env (Sample.forgot_request "ann@x.com")
          Sample.world)
     = [UserSaved (pending Sample.env Sample.ann);
        SendEmail (reset_mail Sample.env (Sample.forgot_request "ann@x.com")
                     Sample.ann);
        email_sent;
        Next (Error "Cannot set headers after they are sent to the client")].
Proof.
  apply (forgotPassword_answers_once
           Sample.env (Sample.forgot_request "ann@x.com") Sample.world
           Sample.ann).
  - vm_compute. reflexivity.
  - reflexivity.
Defined.

(** C8 on the instance: the scenario of the specification. *)
Lemma forgotPassword_unknown_email_404_witness :
  forgotPassword Sample.env (Sample.forgot_request "unknown@x.com") Sample.world
  = rejected (ErrorResponse "There is no user with the email unknown@x.com" 404)
             Sample.world.
Proof.
  apply (forgotPassword_unknown_email_404
           Sample.env (Sample.forgot_request "unknown@x.com") Sample.world
           "unknown@x.com").
  - vm_compute. reflexivity.
  - intros u Hu. members Hu. discriminate.
Defined.

(** C2 on the instance: an unknown address against Ann's address with a
    wrong password. *)
Lemma login_failures_indistinguishable_witness :
  (forall req,
     body req !! "email" = None \/ body req !! "password" = None ->
     login Sample.env req Sample.world
     = rejected (ErrorResponse "Please provide a email and password" 400)
                Sample.world)
  /\ login Sample.env (Sample.login_request "bob@x.com" "secret1") Sample.world
     = rejected (ErrorResponse "Invalid credentials" 401) Sample.world
  /\ login Sample.env (Sample.login_request "ann@x.com" "wrong") Sample.world
     = rejected (ErrorResponse "Invalid credentials" 401) Sample.world
  /\ events_since Sample.world
       (login Sample.env (Sample.login_request "bob@x.com" "secret1") Sample.world)
     = events_since Sample.world
         (login Sample.env (Sample.login_request "ann@x.com" "wrong") Sample.world).
Proof.
  apply (login_failures_indistinguishable
           Sample.env Sample.world
           (Sample.login_request "bob@x.com" "secret1")
           (Sample.login_request "ann@x.com" "wrong")
           "bob@x.com" "secret1" "ann@x.com" "wrong"
           Sample.ann "$2a$10$saltsecret1").
  - vm_compute. reflexivity.
  - discriminate.
  - vm_compute. reflexivity.
  - discriminate.
  - vm_compute. reflexivity.
  - discriminate.
  - vm_compute. reflexivity.
  - discriminate.
  - intros v Hv. members Hv. discriminate.
  - vm_compute. reflexivity.
  - reflexivity.
  - vm_compute. reflexivity.
Defined.

(** C7 on the instance: Bob registers with the password "secret2". *)
Lemma register_stores_hashed_password_witness :
  exists d,
    users (register Sample.env Sample.register_request Sample.world)
    = users Sample.world ++ [d]
    /\ email d = Some "bob@x.com"
    /\ password d = Some "$2a$10$saltsecret2"
    /\ password d <> Some "secret2"
    /\ events_since Sample.world
         (register Sample.env Sample.register_request Sample.world)
       = [UserCreated d; token_response Sample.env d 200].
Proof.
  refine (register_stores_hashed_password
            Sample.env Sample.register_request Sample.world "secret2" _ _ _ _).
  - intros salt. cbn. discriminate.
  - vm_compute. reflexivity.
  - vm_compute. reflexivity.
  - intros u Hu. members Hu. vm_compute. discriminate.
Defined.

(** C9 on the instance: Bob, a publisher, deletes Ann's bootcamp. *)
Lemma deleteBootcamp_deletes_before_authorizing_witness :
  let w' := deleteBootcamp Sample.env (Sample.delete_request Sample.bob)
              Sample.world in
  events_since Sample.world w'
  = [BootcampDeleted Sample.devworks;
     Next (ErrorResponse
             "User u2 is not authorized to delete this bootcamp" 401)]
  /\ (exists l1 l2, bootcamps Sample.world = l1 ++ Sample.devworks :: l2
                    /\ bootcamps w' = l1 ++ l2)
  /\ (NoDup (bootcamp_id <$> bootcamps Sample.world) ->
      forall b', b' ∈ bootcamps w' -> bootcamp_id b' <> "b1").
Proof.
  apply (deleteBootcamp_deletes_before_authorizing
           Sample.env (Sample.delete_request Sample.bob) Sample.world
           Sample.devworks Sample.bob).
  - reflexivity.
  - reflexivity.
  - discriminate.
  - discriminate.
Defined.

(** C10 on the instance: Ann, who owns a bootcamp, is refused a second
    one; as an admin she is not. *)
Lemma createBootcamp_one_per_publisher_witness :
  createBootcamp Sample.env (Sample.create_request Sample.ann) Sample.world
  = rejected (ErrorResponse
                "The user with id: u1 has already published a bootcamp" 400)
             Sample.world
  /\ bootcamps (createBootcamp Sample.env (Sample.create_request Sample.root)
                  Sample.world)
     = [Sample.devworks;
        new_bootcamp Sample.env (Sample.create_request Sample.root) Sample.root].
Proof.
  split.
  - apply (createBootcamp_one_per_publisher
             Sample.env (Sample.create_request Sample.ann) Sample.world
             Sample.ann eq_refl).
    + discriminate.
    + exists Sample.devworks. split; [by left|reflexivity].
  - apply (createBootcamp_one_per_publisher
             Sample.env (Sample.create_request Sample.root) Sample.world
             Sample.root eq_refl); reflexivity.
Defined.

End Instances.

(** * Further properties *)

Ltac run_more :=
  unfold asyncHandlerU, lift, mv, mbind, MU_bind, mret, MU_ret,
         BootcampModel.findById, BootcampModel.findByIdAndUpdate, res_updated;
  run.

Lemma rejected_inj (e1 e2 : JsError) (w : World) :
  rejected e1 w = rejected e2 w -> e1 = e2.
Proof.
  unfold rejected. intros [= Heq]. apply app_inv_head in Heq. by injection Heq.
Qed.

Lemma truthy_Some (v : option string) :
  truthy v = true <-> exists s, v = Some s /\ s <> "".
Proof.
  destruct v as [s|]; cbn.
  - rewrite bool_decide_eq_true. split; [eauto|]. by intros (s' & [= <-] & Hs).
  - split; [done|]. by intros (s' & [=] & _).
Qed.

(** ** Login, on every request *)

Section LoginCases.
Context `{Crypto}.

(** The stored document has no password to compare with. *)
Lemma login_no_stored_password env req w u :
  truthy (body req !! "email") = true ->
  truthy (body req !! "password") = true ->
  List.find (by_email (body req !! "email")) (users w) = Some u ->
  password u = None ->
  login env req w = rejected (Error "Illegal arguments") w.
Proof.
  intros He Hp Hfind Hnone. unfold login. run. rewrite He, Hp.
  cbn [negb orb]. rewrite Hfind. run. unfold UserModel.project.
  rewrite Hnone. by destruct (body req !! "password").
Qed.

(** The five ways a login ends. *)
Lemma login_cases env req w :
  ((truthy (body req !! "email") = false
    \/ truthy (body req !! "password") = false)
   /\ login env req w
      = rejected (ErrorResponse "Please provide a email and password" 400) w)
  \/ (login env req w = rejected (ErrorResponse "Invalid credentials" 401) w)
  \/ (login env req w = rejected (Error "Illegal arguments") w)
  \/ (exists u p h,
        body req !! "password" = Some p /\ p <> ""
        /\ truthy (body req !! "email") = true
        /\ List.find (by_email (body req !! "email")) (users w) = Some u
        /\ password u = Some h
        /\ bcrypt_compare p h = true
        /\ login env req w
           = mkWorld (users w) (bootcamps w)
                     (trace w ++ [token_response env u 200])).
Proof.
  destruct (truthy (body req !! "email")) eqn:He.
  2:{ left. split; [by left|]. apply login_missing. by left. }
  destruct (truthy (body req !! "password")) eqn:Hp.
  2:{ left. split; [by right|]. apply login_missing. by right. }
  right.
  destruct (List.find (by_email (body req !! "email")) (users w)) as [u|] eqn:Hfind.
  2:{ left. by apply login_unknown_email. }
  destruct (password u) as [h|] eqn:Hh.
  2:{ right. left. by apply (login_no_stored_password env req w u). }
  apply truthy_Some in Hp as (p & Hp & Hne).
  destruct (bcrypt_compare p h) eqn:Hcmp.
  - right. right. exists u, p, h. repeat (split; [done|]).
    by apply (login_match env req w u p h).
  - left. by apply (login_wrong_password env req w u p h).
Qed.

(** X1.  Whatever the request, [login] writes to no collection and ends
    with exactly one call: either one answer on [res] or one call of
    [next]. *)
Theorem login_answers_once_and_writes_nothing env req w :
  exists e,
    login env req w = mkWorld (users w) (bootcamps w) (trace w ++ [e])
    /\ (is_response e = true \/ exists err, e = Next err).
Proof.
  destruct (login_cases env req w)
    as [[_ ->] | [-> | [-> | (u & p & h & _ & _ & _ & _ & _ & _ & ->)]]];
    eexists; (split; [reflexivity|]); cbn; eauto.
Qed.

(** X2.  For a body whose e-mail and password are absent or strings,
    [login] issues a token only for verified credentials: if it
    answers on [res] at all, then the request carries a non-empty
    e-mail and password, a user has that e-mail, the password verifies
    against the hash stored for that user, and the one answer is the
    token response signed for that user. *)
Theorem login_token_only_for_verified_password env req w e :
  e ∈ events_since w (login env req w) ->
  is_response e = true ->
  exists u p h,
    body req !! "password" = Some p /\ p <> ""
    /\ truthy (body req !! "email") = true
    /\ List.find (by_email (body req !! "email")) (users w) = Some u
    /\ password u = Some h
    /\ bcrypt_compare p h = true
    /\ events_since w (login env req w) = [token_response env u 200].
Proof.
  intros He Hresp.
  destruct (login_cases env req w)
    as [[_ Hl] | [Hl | [Hl | (u & p & h & Hp & Hne & Hem & Hfind & Hh & Hcmp & Hl)]]];
    rewrite Hl in He |- *.
  1-3: rewrite events_since_rejected in He; members He; discriminate Hresp.
  exists u, p, h. repeat (split; [done|]). by rewrite events_since_mk.
Qed.

(** X3.  For a body whose e-mail and password are absent or strings,
    [login] refuses the request with "Please provide a email and
    password" (400) exactly when one of the two is absent or the empty
    string. *)
Theorem login_400_iff_missing_or_empty env req w :
  login env req w
  = rejected (ErrorResponse "Please provide a email and password" 400) w
  <-> (body req !! "email" = None \/ body req !! "email" = Some ""
       \/ body req !! "password" = None \/ body req !! "password" = Some "").
Proof.
  assert (forall v, truthy v = false <-> v = None \/ v = Some "") as Hfalsy.
  { intros [s|]; cbn.
    - rewrite bool_decide_eq_false. split.
      + intros Hs. right. f_equal. by destruct (decide (s = "")).
      + intros [[=] | [= ->]]. by intros [].
    - split; [by left|done]. }
  split.
  - intros H400.
    destruct (login_cases env req w)
      as [[Hmiss _] | [Hl | [Hl | (u & p & h & _ & _ & _ & _ & _ & _ & Hl)]]].
    + destruct Hmiss as [Hm | Hm]; apply Hfalsy in Hm; tauto.
    + rewrite Hl in H400. by apply rejected_inj in H400.
    + rewrite Hl in H400. by apply rejected_inj in H400.
    + rewrite Hl in H400. unfold rejected in H400. injection H400 as H400.
      apply app_inv_head in H400. discriminate.
  - intros Hcase. apply login_missing. rewrite !Hfalsy. tauto.
Qed.

End LoginCases.

(** ** The token response *)

Section TokenResponse.
Context `{Crypto, Schema}.

Lemma token_response_has_shape env u :
  token_response_shape env (token_response env u 200).
Proof.
  cbn. split; [done|]. eexists _, _. split; [done|]. split; [done|].
  cbn. split; [done|]. apply bool_decide_eq_true.
Qed.

(** The four ways a registration ends. *)
Lemma register_cases env req w :
  (exists err, register env req w = rejected err w)
  \/ (exists p,
        body req !! "password" = Some p
        /\ userValid (new_user env req) = true
        /\ existsb (by_email (body req !! "email")) (users w) = false
        /\ let d := set_password (Some (bcrypt_hash p (genSalt env)))
                                 (new_user env req) in
           register env req w
           = mkWorld (users w ++ [d]) (bootcamps w)
                     (trace w ++ [UserCreated d; token_response env d 200])).
Proof.
  destruct (userValid (new_user env req)) eqn:Hvalid.
  2:{ left. eexists. unfold register. run. fold (new_user env req).
      by rewrite Hvalid. }
  destruct (body req !! "password") as [p|] eqn:Hp.
  2:{ left. eexists. unfold register. run. fold (new_user env req).
      by rewrite Hvalid, Hp. }
  destruct (existsb (by_email (body req !! "email")) (users w)) eqn:Hdup.
  - left. eexists. unfold register. run. fold (new_user env req).
    by rewrite Hvalid, Hp, Hdup.
  - right. exists p. repeat (split; [done|]).
    by apply register_created.
Qed.

(** The three ways a reset ends. *)
Lemma resetPassword_cases env req w :
  (exists err, resetPassword env req w = rejected err w)
  \/ (exists u,
        List.find (by_reset_token (sha256 (params_resettoken req)) (now env))
                  (users w) = Some u
        /\ userValid (reset_edit (body req !! "password") u) = true
        /\ let d := UserModel.pre_save (genSalt env)
                      (reset_edit (body req !! "password") u) in
           resetPassword env req w
           = mkWorld (UserModel.write d (users w)) (bootcamps w)
                     (trace w ++ [UserSaved d; token_response env d 200])).
Proof.
  destruct (List.find (by_reset_token (sha256 (params_resettoken req)) (now env))
                      (users w)) as [u|] eqn:Hfind.
  2:{ left. eexists. by apply resetPassword_no_match. }
  destruct (userValid (reset_edit (body req !! "password") u)) eqn:Hvalid.
  - right. exists u. repeat (split; [done|]). by apply resetPassword_match.
  - left. eexists. by apply (resetPassword_invalid env req w u).
Qed.

(** X4.  Every answer that [register], [login] or [resetPassword] gives
    on [res] is the token response of [sendTokenResponse]: status 200, a
    body carrying a token, and a cookie named [token] with that same
    token, always [httpOnly], and [secure] exactly when [NODE_ENV] is
    "production". *)
Theorem token_cookie_always_httpOnly_secure_in_production env req w e :
  (e ∈ events_since w (register env req w)
   \/ e ∈ events_since w (login env req w)
   \/ e ∈ events_since w (resetPassword env req w)) ->
  is_response e = true ->
  token_response_shape env e.
Proof.
  intros [He | [He | He]] Hresp.
  - destruct (register_cases env req w) as [[err Hr] | (p & _ & _ & _ & Hr)];
      cbv zeta in Hr; rewrite Hr in He.
    + rewrite events_since_rejected in He. members He. discriminate Hresp.
    + rewrite events_since_mk in He. members He; [discriminate Hresp|].
      apply token_response_has_shape.
  - destruct (login_cases env req w)
      as [[_ Hl] | [Hl | [Hl | (u & p & h & _ & _ & _ & _ & _ & _ & Hl)]]];
      rewrite Hl in He.
    1-3: rewrite events_since_rejected in He; members He; discriminate Hresp.
    rewrite events_since_mk in He. members He. apply token_response_has_shape.
  - destruct (resetPassword_cases env req w) as [[err Hr] | (u & _ & _ & Hr)];
      cbv zeta in Hr; rewrite Hr in He.
    + rewrite events_since_rejected in He. members He. discriminate Hresp.
    + rewrite events_since_mk in He. members He; [discriminate Hresp|].
      apply token_response_has_shape.
Qed.

End TokenResponse.

(** ** What the password flows leave alone *)

Lemma Forall2_fmap_same {A} (R : A -> A -> Prop) (g : A -> A) (l : list A) :
  (forall x, R x (g x)) -> Forall2 R l (g <$> l).
Proof. intros HR. induction l; constructor; auto. Qed.

Lemma find_app_None {A} (f : A -> bool) (l1 l2 : list A) :
  List.find f l1 = None -> List.find f (l1 ++ l2) = List.find f l2.
Proof.
  induction l1 as [|a l1 IH]; [done|]. cbn.
  destruct (f a); [done|]. apply IH.
Qed.

Section Frames.
Context `{Crypto, Schema}.

(** X5.  [forgotPassword] adds and removes no user and changes nobody's
    [_id], name, e-mail, role or password, whatever the request and
    whether or not the mail goes out. *)
Theorem forgotPassword_keeps_accounts_and_passwords env req w :
  Forall2 (fun a b => same_account a b /\ password a = password b)
          (users w) (users (forgotPassword env req w)).
Proof.
  destruct (List.find (by_email (body req !! "email")) (users w)) as [u|] eqn:Hfind.
  2:{ rewrite (forgotPassword_unknown env req w Hfind). cbn.
      replace (users w) with (id <$> users w) at 2 by apply list_fmap_id.
      by apply Forall2_fmap_same. }
  destruct (sendEmail env (reset_mail env req u)) as [err|] eqn:Hmail.
  - rewrite (forgotPassword_mail_failed env req w u err Hfind Hmail). cbn [users].
    unfold UserModel.write. rewrite <- list_fmap_compose.
    apply Forall2_fmap_same. intros x. cbn.
    repeat case_bool_decide; done.
  - rewrite (forgotPassword_mail_sent env req w u Hfind Hmail). cbn [users].
    apply Forall2_fmap_same. intros x. by case_bool_decide.
Qed.

(** X6.  [resetPassword] adds and removes no user and changes nobody's
    [_id], name, e-mail or role; a stored document changes only if it
    is stored under the [_id] of the user whose token matched. *)
Theorem resetPassword_changes_matched_account_only env req w :
  Forall2 (fun a b =>
             same_account a b
             /\ (a = b
                 \/ exists u,
                      List.find (by_reset_token (sha256 (params_resettoken req))
                                                (now env)) (users w) = Some u
                      /\ _id a = _id u))
          (users w) (users (resetPassword env req w)).
Proof.
  destruct (resetPassword_cases env req w) as [[err Hr] | (u & Hfind & _ & Hr)];
    cbv zeta in Hr; rewrite Hr; cbn [users rejected].
  - replace (users w) with (id <$> users w) at 2 by apply list_fmap_id.
    apply Forall2_fmap_same. intros x. by split; [|left].
  - apply Forall2_fmap_same. intros x. case_bool_decide as Hid.
    + split; [done|]. right. exists u. split; [done|].
      by rewrite Hid, pre_save_id.
    + by split; [|left].
Qed.

(** X7.  The password someone registered with logs that user in: after
    a registration that stored the user, a login with the same e-mail
    and password, at any later time, answers with the token of the new
    user, provided the verification function accepts a password
    against its own hash. *)
Theorem login_after_register env req w env2 req2 e p :
  body req !! "email" = Some e -> e <> "" ->
  body req !! "password" = Some p -> p <> "" ->
  userValid (new_user env req) = true ->
  (forall u, u ∈ users w -> email u <> Some e) ->
  bcrypt_compare p (bcrypt_hash p (genSalt env)) = true ->
  body req2 !! "email" = Some e ->
  body req2 !! "password" = Some p ->
  let w1 := register env req w in
  let d := set_password (Some (bcrypt_hash p (genSalt env))) (new_user env req) in
  users w1 = users w ++ [d]
  /\ events_since w1 (login env2 req2 w1) = [token_response env2 d 200].
Proof.
  intros He Hne Hp Hnp Hvalid Hfresh Hcmp He2 Hp2 w1 d. subst w1.
  assert (List.find (by_email (Some e)) (users w) = None) as Hnone.
  { apply find_None_elem_of. intros u Hu. apply bool_decide_eq_false_2.
    by apply Hfresh. }
  assert (existsb (by_email (body req !! "email")) (users w) = false) as Hex.
  { rewrite He. apply not_true_is_false. intros Hex.
    apply existsb_exists in Hex as (u & Hin & Hu).
    apply bool_decide_eq_true in Hu.
    by apply (Hfresh u); [apply list_elem_of_In|]. }
  rewrite (register_created env req w p Hp Hvalid Hex). fold d.
  split; [done|].
  erewrite (login_match env2 req2 _ d p); [by rewrite events_since_mk|..];
    try done.
  - rewrite He2. cbn. by apply bool_decide_eq_true_2.
  - rewrite He2. cbn [users]. rewrite find_app_None by done.
    cbn. unfold by_email, d, new_user. cbn. rewrite He.
    by rewrite bool_decide_eq_true_2.
Qed.

(** X8.  The new password logs in after a reset: when the token
    presented matches the account of the e-mail [e], the reset saves
    the hash of the new password, and a login with [e] and the new
    password, at any later time, answers with a token of that account,
    provided the verification function accepts a password against its
    own hash. *)
Theorem login_after_reset env req w env2 req2 u e p :
  List.find (by_reset_token (sha256 (params_resettoken req)) (now env))
            (users w) = Some u ->
  List.find (by_email (Some e)) (users w) = Some u ->
  e <> "" ->
  body req !! "password" = Some p -> p <> "" ->
  userValid (reset_edit (Some p) u) = true ->
  bcrypt_compare p (bcrypt_hash p (genSalt env)) = true ->
  body req2 !! "email" = Some e ->
  body req2 !! "password" = Some p ->
  let w1 := resetPassword env req w in
  exists v,
    List.find (by_email (Some e)) (users w1) = Some v
    /\ _id v = _id u
    /\ password v = Some (bcrypt_hash p (genSalt env))
    /\ events_since w1 (login env2 req2 w1) = [token_response env2 v 200].
Proof.
  intros Hfind Hmail Hne Hp Hnp Hvalid Hcmp He2 Hp2 w1. subst w1.
  rewrite <- Hp in Hvalid.
  rewrite (resetPassword_match env req w u Hfind Hvalid). rewrite Hp.
  set (d := UserModel.pre_save (genSalt env) (reset_edit (Some p) u)).
  assert (_id d = _id u) as Hid by (unfold d; by rewrite pre_save_id).
  assert (password d = Some (bcrypt_hash p (genSalt env))) as Hpd by done.
  assert (password (UserModel.merge d u)
          = Some (bcrypt_hash p (genSalt env))) as Hpm.
  { change (password (UserModel.merge d u))
      with (match password d with Some h => Some h | None => password u end).
    by rewrite Hpd. }
  exists (UserModel.merge d u).
  assert (List.find (by_email (Some e)) (UserModel.write d (users w))
          = Some (UserModel.merge d u)) as Hfind1
    by (by apply find_by_email_write).
  split; [done|]. split; [done|]. split; [done|].
  rewrite (login_match env2 req2 _ (UserModel.merge d u) p
             (bcrypt_hash p (genSalt env))); [by rewrite events_since_mk|..];
    try done.
  - rewrite He2. cbn. by apply bool_decide_eq_true_2.
  - by rewrite He2.
Qed.

End Frames.

(** ** From the mail to the reset *)

Section MailedToken.
Context `{Crypto, Schema}.


End MailedToken.

(** ** Bootcamps: delete, create, get *)

Lemma find_None_filter {A} (f : A -> bool) (l : list A) :
  List.find f l = None -> List.filter f l = [].
Proof.
  induction l as [|a l IH]; [done|]. cbn.
  destruct (f a); [done|]. apply IH.
Qed.

(** With unique ids, deleting the document of an id leaves none. *)
Lemma delete_first_by_id_gone id (l : list Bootcamp) :
  NoDup (bootcamp_id <$> l) ->
  List.find (by_id id) (BootcampModel.delete_first (by_id id) l) = None.
Proof.
  induction l as [|a l IH]; [done|]. cbn.
  intros Hnodup. apply NoDup_cons in Hnodup as [Hnotin Hnodup].
  destruct (by_id id a) eqn:Ha.
  - apply bool_decide_eq_true in Ha. apply find_None_elem_of. intros x Hx.
    apply bool_decide_eq_false_2. intros Hxid. apply Hnotin.
    rewrite Ha, <- Hxid. by apply list_elem_of_fmap_2.
  - cbn. rewrite Ha. by apply IH.
Qed.

Section BootcampCases.
Context `{Schema, UpdateSchema}.

Lemma getBootcamp_found req w b :
  List.find (by_id (params_id req)) (bootcamps w) = Some b ->
  getBootcamp req w
  = mkWorld (users w) (bootcamps w)
            (trace w ++ [ResJson 200 None
                           [("success", JBool true); ("data", JBootcamp b)]]).
Proof. intros Hfind. unfold getBootcamp. run_more. rewrite Hfind. by run. Qed.

Lemma getBootcamp_not_found req w :
  List.find (by_id (params_id req)) (bootcamps w) = None ->
  getBootcamp req w
  = rejected (ErrorResponse
                ("Bootcamp not found with id of: " +:+ params_id req) 404) w.
Proof. intros Hfind. unfold getBootcamp. run_more. by rewrite Hfind. Qed.

(** X11.  A delete by the owner of the bootcamp or by an admin is
    answered 200 with an empty object; the collection loses that
    document and keeps every other one, and, ids being unique, a get of
    the same id afterwards is answered 404. *)
Theorem deleteBootcamp_by_owner_or_admin env req w b u :
  List.find (by_id (params_id req)) (bootcamps w) = Some b ->
  user req = Some u ->
  may_change u b ->
  NoDup (bootcamp_id <$> bootcamps w) ->
  let w' := deleteBootcamp env req w in
  events_since w w'
  = [BootcampDeleted b;
     ResJson 200 None [("success", JBool true); ("data", JEmptyObject)]]
  /\ (exists l1 l2, bootcamps w = l1 ++ b :: l2 /\ bootcamps w' = l1 ++ l2)
  /\ getBootcamp req w'
     = rejected (ErrorResponse
                   ("Bootcamp not found with id of: " +:+ params_id req) 404) w'.
Proof.
  intros Hfind Hu Hmay Hnodup w'.
  destruct (find_elem_of _ _ _ Hfind) as [_ Hb].
  apply bool_decide_eq_true in Hb.
  pose proof (delete_first_by_id_gone (params_id req) (bootcamps w) Hnodup)
    as Hgone.
  assert (w' = mkWorld (users w)
                 (BootcampModel.delete_first (by_id (params_id req)) (bootcamps w))
                 (trace w ++ [BootcampDeleted b;
                              ResJson 200 None
                                [("success", JBool true); ("data", JEmptyObject)]]))
    as ->.
  { subst w'. unfold deleteBootcamp. run. rewrite Hfind, Hu. cbn.
    assert (bool_decide (bootcamp_user b <> _id u)
            && bool_decide (role u <> Some "admin") = false) as ->.
    { destruct Hmay as [Hown | Hadmin].
      - by rewrite (bool_decide_eq_false_2 (bootcamp_user b <> _id u))
          by (by intros []).
      - rewrite (bool_decide_eq_false_2 (role u <> Some "admin"))
          by (by intros []).
        apply andb_false_r. }
    cbn. rewrite Hb, Hgone. cbn. by run. }
  rewrite events_since_mk. split; [done|]. split.
  - destruct (delete_first_split _ _ _ Hfind) as (l1 & l2 & Hl & Hdel & _).
    exists l1, l2. by rewrite Hdel.
  - by apply getBootcamp_not_found.
Qed.

(** The ways a create ends, for a caller who is authenticated. *)
Lemma createBootcamp_cases env req w u :
  user req = Some u ->
  (exists err, createBootcamp env req w = rejected err w)
  \/ ((role u = Some "admin"
       \/ List.find (by_user (_id u)) (bootcamps w) = None)
      /\ bootcampValid (bootcamps w) (new_bootcamp env req u) = true
      /\ createBootcamp env req w
         = mkWorld (users w) (bootcamps w ++ [new_bootcamp env req u])
                   (trace w ++ [BootcampCreated (new_bootcamp env req u);
                                ResJson 201 None
                                  [("success", JBool true);
                                   ("data", JBootcamp (new_bootcamp env req u))]])).
Proof.
  intros Hu.
  destruct (decide (role u = Some "admin")) as [Hadmin|Hrole].
  - rewrite (createBootcamp_admin env req w u Hu Hadmin).
    destruct (bootcampValid _ _) eqn:Hvalid; [right|left]; eauto.
  - destruct (List.find (by_user (_id u)) (bootcamps w)) as [b|] eqn:Hfind.
    + left. eexists. by apply (createBootcamp_second env req w u b).
    + unfold createBootcamp. run. rewrite Hu. cbn. rewrite Hfind. cbn.
      rewrite lookup_insert_eq. fold (new_bootcamp env req u).
      destruct (bootcampValid _ _) eqn:Hvalid; [right|left; eauto].
      split; [by right|]. split; [done|]. cbn. by run.
Qed.

(** X12.  A bootcamp created through [createBootcamp] belongs to the
    caller, whatever owner the body names: every document of the
    collection afterwards was there before, or is the one new document,
    which is owned by the caller and takes every field other than
    [user] from the body. *)
Theorem createBootcamp_owner_is_caller env req w u b :
  user req = Some u ->
  b ∈ bootcamps (createBootcamp env req w) ->
  b ∈ bootcamps w
  \/ (bootcamp_id b = newObjectId env
      /\ bootcamp_user b = _id u
      /\ bootcamp_data b !! "user" = None
      /\ forall k, k <> "user" -> bootcamp_data b !! k = body req !! k).
Proof.
  intros Hu Hb.
  destruct (createBootcamp_cases env req w u Hu) as [[err Hc] | (_ & _ & Hc)];
    rewrite Hc in Hb; cbn in Hb; [by left|].
  apply elem_of_app in Hb as [Hb|Hb]; [by left|]. right.
  apply list_elem_of_singleton in Hb as ->. cbn.
  split; [done|]. split; [done|]. split; [apply lookup_delete_eq|].
  intros k Hk. by rewrite lookup_delete_ne, lookup_insert_ne.
Qed.

(** X13.  [createBootcamp] keeps the limit it enforces: a caller who is
    no admin and owned at most one bootcamp owns at most one
    afterwards, and nobody else's number of bootcamps changes. *)
Theorem createBootcamp_keeps_one_per_publisher env req w u :
  user req = Some u ->
  role u <> Some "admin" ->
  (owned (_id u) (bootcamps (createBootcamp env req w))
   <= Nat.max 1 (owned (_id u) (bootcamps w)))%nat
  /\ forall uid, uid <> _id u ->
       owned uid (bootcamps (createBootcamp env req w))
       = owned uid (bootcamps w).
Proof.
  intros Hu Hrole.
  destruct (createBootcamp_cases env req w u Hu)
    as [[err Hc] | ([Hadmin|Hfind] & _ & Hc)]; [| done |]; rewrite Hc;
    cbn [bootcamps rejected].
  - split; [lia|done].
  - unfold owned. split.
    + rewrite List.filter_app, length_app, (find_None_filter _ _ Hfind).
      cbn. unfold by_user at 1. cbn. rewrite bool_decide_eq_true_2 by done.
      cbn. lia.
    + intros uid Hne. rewrite List.filter_app, length_app. cbn.
      unfold by_user at 2. cbn. rewrite bool_decide_eq_false_2 by done.
      cbn. lia.
Qed.

(** X14.  What was created can be fetched: after a create that was
    answered 201 with the document [b], whose id no bootcamp had
    before, a get of that id is answered 200 with [b]. *)
Theorem getBootcamp_after_create env req w u b r req2 :
  user req = Some u ->
  events_since w (createBootcamp env req w) = [BootcampCreated b; r] ->
  (forall b0, b0 ∈ bootcamps w -> bootcamp_id b0 <> newObjectId env) ->
  params_id req2 = newObjectId env ->
  let w1 := createBootcamp env req w in
  events_since w1 (getBootcamp req2 w1)
  = [ResJson 200 None [("success", JBool true); ("data", JBootcamp b)]].
Proof.
  intros Hu Hok Hfresh Hid w1. subst w1.
  destruct (createBootcamp_cases env req w u Hu) as [[err Hc] | (_ & _ & Hc)];
    rewrite Hc in Hok |- *.
  { rewrite events_since_rejected in Hok. discriminate. }
  rewrite events_since_mk in Hok. injection Hok as <- _.
  rewrite (getBootcamp_found req2 _ (new_bootcamp env req u)).
  - by rewrite events_since_mk.
  - cbn [bootcamps]. rewrite find_app_None.
    + cbn. unfold by_id. cbn. by rewrite Hid, bool_decide_eq_true_2.
    + apply find_None_elem_of. intros b0 Hb0.
      apply bool_decide_eq_false_2. rewrite Hid. by apply Hfresh.
Qed.

End BootcampCases.

(** ** Bootcamps: update and photo upload *)

Lemma may_change_guard (u : User) (b : Bootcamp) :
  bool_decide (bootcamp_user b <> _id u) && bool_decide (role u <> Some "admin")
  = false <-> may_change u b.
Proof.
  unfold may_change. rewrite andb_false_iff, !bool_decide_eq_false.
  split; (intros [Ha | Hb]; [left | right]).
  - by destruct (decide (bootcamp_user b = _id u)).
  - by destruct (decide (role u = Some "admin")).
  - by intros [].
  - by intros [].
Qed.

Lemma may_change_guard_true (u : User) (b : Bootcamp) :
  bootcamp_user b <> _id u -> role u <> Some "admin" ->
  bool_decide (bootcamp_user b <> _id u) && bool_decide (role u <> Some "admin")
  = true.
Proof. intros Ho Hr. by rewrite !bool_decide_eq_true_2. Qed.

(** Replacing the first match changes that document only. *)
Lemma replace_first_Forall2 (R : Bootcamp -> Bootcamp -> Prop)
    (f : Bootcamp -> bool) (b b' : Bootcamp) (l : list Bootcamp) :
  (forall x, R x x) -> R b b' ->
  List.find f l = Some b ->
  Forall2 R l (BootcampModel.replace_first f b' l).
Proof.
  intros Hrefl Hb. induction l as [|a l IH]; [done|]. cbn.
  destruct (f a).
  - intros [= ->]. constructor; [done|].
    replace l with (id <$> l) at 2 by apply list_fmap_id.
    by apply Forall2_fmap_same.
  - intros Hfind. constructor; auto.
Qed.

Section UpdateCases.
Context `{UpdateSchema}.

(** The ways an update ends. *)
Lemma updateBootcamp_cases req w :
  (exists err, updateBootcamp req w = rejected err w)
  \/ (exists b u,
        List.find (by_id (params_id req)) (bootcamps w) = Some b
        /\ user req = Some u
        /\ may_change u b
        /\ bootcampUpdateValid b (body req) = true
        /\ updateBootcamp req w
           = mkWorld (users w)
               (BootcampModel.replace_first (by_id (params_id req))
                  (BootcampModel.apply_update (body req) b) (bootcamps w))
               (trace w ++ [ResJson 200 None
                              [("success", JBool true);
                               ("data", JBootcamp
                                          (BootcampModel.apply_update (body req) b))]])).
Proof.
  unfold updateBootcamp. run_more.
  destruct (List.find (by_id (params_id req)) (bootcamps w)) as [b|] eqn:Hfind;
    [|left; eauto].
  destruct (user req) as [u|] eqn:Hu; cbn; [|left; eauto].
  destruct (bool_decide (bootcamp_user b <> _id u)
            && bool_decide (role u <> Some "admin")) eqn:Hguard;
    cbn; [left; eauto|].
  apply may_change_guard in Hguard. rewrite Hfind.
  destruct (bootcampUpdateValid b (body req)) eqn:Hvalid; cbn; [|left; eauto].
  case_bool_decide; cbn; [left; eauto|].
  right. exists b, u. do 4 (split; [done|]). by run_more.
Qed.

(** X15.  [updateBootcamp] checks before it writes: for a caller who is
    neither the owner of the bootcamp nor an admin it calls [next] with
    "User <id> is not authorized to update this bootcamp" (401) and
    leaves the collection as it was. *)
Theorem updateBootcamp_checks_before_writing req w b u :
  List.find (by_id (params_id req)) (bootcamps w) = Some b ->
  user req = Some u ->
  bootcamp_user b <> _id u ->
  role u <> Some "admin" ->
  updateBootcamp req w
  = rejected (ErrorResponse
                ("User " +:+ _id u
                 +:+ " is not authorized to update this bootcamp") 401) w.
Proof.
  intros Hfind Hu Howner Hrole. unfold updateBootcamp. run_more.
  rewrite Hfind, Hu. cbn. by rewrite may_change_guard_true.
Qed.

(** X16.  Whatever the request, [updateBootcamp] creates and removes no
    bootcamp and changes no id; the one document it may change is the
    one of the id of the request, and only for a caller who owns it or
    is an admin. *)
Theorem updateBootcamp_touches_one_document req w :
  users (updateBootcamp req w) = users w
  /\ Forall2 (fun a b =>
                bootcamp_id a = bootcamp_id b
                /\ (a = b
                    \/ (bootcamp_id a = params_id req
                        /\ exists u, user req = Some u /\ may_change u a)))
             (bootcamps w) (bootcamps (updateBootcamp req w)).
Proof.
  destruct (updateBootcamp_cases req w)
    as [[err Hc] | (b & u & Hfind & Hu & Hmay & _ & Hc)]; rewrite Hc;
    cbn [users bootcamps rejected]; (split; [done|]).
  - replace (bootcamps w) with (id <$> bootcamps w) at 2 by apply list_fmap_id.
    apply Forall2_fmap_same. intros x. by split; [|left].
  - destruct (find_elem_of _ _ _ Hfind) as [_ Hb].
    apply bool_decide_eq_true in Hb.
    apply (replace_first_Forall2 _ _ b); [by intros x; split; [|left] | | done].
    split; [done|]. right. split; [done|]. eauto.
Qed.

(** The upload handler up to the move of the file, for an upload that
    passes every check. *)
Lemma bootcampPhotoUpload_checked uenv req w disk b u file :
  List.find (by_id (params_id req)) (bootcamps w) = Some b ->
  user req = Some u ->
  may_change u b ->
  acceptable uenv file ->
  let f' := photo_file uenv b file in
  let path := FILE_UPLOAD_PATH uenv +:+ "/" +:+ file_name f' in
  bootcampPhotoUpload uenv req (Some (Some file)) (w, disk)
  = match file_mv uenv path f' with
    | None =>
        (mkWorld (users w)
           (BootcampModel.replace_first (by_id (params_id req))
              (BootcampModel.apply_update {[ "photo" := file_name f' ]} b)
              (bootcamps w))
           (trace w ++ [ResJson 200 None
                          [("success", JBool true);
                           ("data", JString (file_name f'))]]),
         disk ++ [(path, f')])
    | Some err =>
        (mkWorld (users w) (bootcamps w)
           (trace w ++ [ConsoleLog err;
                        Next (ErrorResponse "Problem with file upload" 500)]),
         disk)
    end.
Proof.
  intros Hfind Hu Hmay [Himage Hsize] f' path.
  unfold bootcampPhotoUpload. run_more. rewrite Hfind, Hu. cbn.
  rewrite (proj2 (may_change_guard u b) Hmay). rewrite Himage. cbn [negb].
  assert (match MAX_FILE_UPLOAD_number uenv with
          | Some limit => bool_decide (limit < file_size file)
          | None => false
          end = false) as ->.
  { destruct (MAX_FILE_UPLOAD_number uenv) as [limit|]; [|done].
    apply bool_decide_eq_false_2. specialize (Hsize limit eq_refl). lia. }
  subst path f'. unfold photo_file. cbn [file_name file_mimetype file_size].
  destruct (file_mv uenv _ _) as [err|]; cbn.
  - by run.
  - rewrite Hfind. cbn. rewrite lookup_singleton_ne by done.
    rewrite bool_decide_eq_false_2; [by run|]. by intros [[x Hx] _].
Qed.


(** Either the upload handler did nothing but call [next(err)], or the
    request passed every check before the move. *)
Lemma bootcampPhotoUpload_cases uenv req files w disk :
  (exists err,
     bootcampPhotoUpload uenv req files (w, disk) = (rejected err w, disk))
  \/ (exists b u file,
        List.find (by_id (params_id req)) (bootcamps w) = Some b
        /\ user req = Some u
        /\ may_change u b
        /\ files = Some (Some file)
        /\ acceptable uenv file).
Proof.
  destruct (List.find (by_id (params_id req)) (bootcamps w)) as [b|] eqn:Hfind.
  2:{ left. eexists. unfold bootcampPhotoUpload. run_more. by rewrite Hfind. }
  destruct (user req) as [u|] eqn:Hu.
  2:{ left. eexists. unfold bootcampPhotoUpload. run_more.
      by rewrite Hfind, Hu. }
  destruct (bool_decide (bootcamp_user b <> _id u)
            && bool_decide (role u <> Some "admin")) eqn:Hguard.
  { left. eexists. unfold bootcampPhotoUpload. run_more.
    rewrite Hfind, Hu. cbn. by rewrite Hguard. }
  destruct files as [[file|]|].
  2,3: left; eexists; unfold bootcampPhotoUpload; run_more;
       rewrite Hfind, Hu; cbn; by rewrite Hguard.
  destruct (String.prefix "image" (file_mimetype file)) eqn:Himage.
  2:{ left. eexists. unfold bootcampPhotoUpload. run_more.
      rewrite Hfind, Hu. cbn. by rewrite Hguard, Himage. }
  destruct (MAX_FILE_UPLOAD_number uenv) as [limit|] eqn:Hlimit.
  - destruct (decide (limit < file_size file)) as [Hbig|Hsmall].
    + left. eexists. unfold bootcampPhotoUpload. run_more.
      rewrite Hfind, Hu. cbn. rewrite Hguard, Himage, Hlimit. cbn.
      by rewrite bool_decide_eq_true_2.
    + right. exists b, u, file. apply may_change_guard in Hguard.
      do 4 (split; [done|]). split; [done|].
      intros l. rewrite Hlimit. intros [= <-]. lia.
  - right. exists b, u, file. apply may_change_guard in Hguard.
    do 4 (split; [done|]). split; [done|].
    intros l. by rewrite Hlimit.
Qed.

(** X18.  The upload handler moves a file only after every check: if
    the disk or the collection differs after the handler, then the
    bootcamp of the request exists, the caller owns it or is an admin,
    and the request carries a file whose type starts with "image" and
    whose size is within [MAX_FILE_UPLOAD]; the one file written is the
    uploaded one under the name photo_<id><ext>. *)
Theorem bootcampPhotoUpload_writes_only_checked_files uenv req files w disk :
  let r := bootcampPhotoUpload uenv req files (w, disk) in
  (snd r = disk /\ bootcamps (fst r) = bootcamps w /\ users (fst r) = users w)
  \/ (exists b u file,
        List.find (by_id (params_id req)) (bootcamps w) = Some b
        /\ user req = Some u
        /\ may_change u b
        /\ files = Some (Some file)
        /\ acceptable uenv file
        /\ snd r = disk ++ [(FILE_UPLOAD_PATH uenv +:+ "/"
                             +:+ file_name (photo_file uenv b file),
                             photo_file uenv b file)]).
Proof.
  intros r. subst r.
  destruct (bootcampPhotoUpload_cases uenv req files w disk)
    as [[err ->] | (b & u & file & Hfind & Hu & Hmay & -> & Hok)];
    [by left|].
  pose proof (bootcampPhotoUpload_checked uenv req w disk b u file
                Hfind Hu Hmay Hok) as Hrun.
  cbv zeta in Hrun. rewrite Hrun.
  destruct (file_mv uenv _ _) as [err|]; [by left|].
  right. exists b, u, file. done.
Qed.

(** X19.  The refusals of the upload handler, in the order of its
    checks, for an existing bootcamp and a caller who may change it: a
    request without files is refused with "Please upload a file", a
    file whose type does not start with "image" with "Please upload a
    image file", a file larger than [MAX_FILE_UPLOAD] with "Please
    upload a image less than " followed by the limit, each with status
    400 and without any write; with no numeric limit configured no
    size is refused. *)
Theorem bootcampPhotoUpload_refusals uenv req w disk b u :
  List.find (by_id (params_id req)) (bootcamps w) = Some b ->
  user req = Some u ->
  may_change u b ->
  bootcampPhotoUpload uenv req None (w, disk)
  = (rejected (ErrorResponse "Please upload a file" 400) w, disk)
  /\ (forall file,
        String.prefix "image" (file_mimetype file) = false ->
        bootcampPhotoUpload uenv req (Some (Some file)) (w, disk)
        = (rejected (ErrorResponse "Please upload a image file" 400) w, disk))
  /\ (forall file limit,
        String.prefix "image" (file_mimetype file) = true ->
        MAX_FILE_UPLOAD_number uenv = Some limit ->
        limit < file_size file ->
        bootcampPhotoUpload uenv req (Some (Some file)) (w, disk)
        = (rejected (ErrorResponse
                       ("Please upload a image less than "
                        +:+ MAX_FILE_UPLOAD uenv) 400) w, disk))
  /\ (forall file,
        String.prefix "image" (file_mimetype file) = true ->
        MAX_FILE_UPLOAD_number uenv = None ->
        acceptable uenv file).
Proof.
  intros Hfind Hu Hmay. apply may_change_guard in Hmay.
  split; [|split; [|split]].
  - unfold bootcampPhotoUpload. run_more. rewrite Hfind, Hu. cbn.
    by rewrite Hmay.
  - intros file Himage. unfold bootcampPhotoUpload. run_more.
    rewrite Hfind, Hu. cbn. by rewrite Hmay, Himage.
  - intros file limit Himage Hlimit Hbig. unfold bootcampPhotoUpload. run_more.
    rewrite Hfind, Hu. cbn. rewrite Hmay, Himage, Hlimit. cbn.
    by rewrite bool_decide_eq_true_2.
  - intros file Himage Hnone. split; [done|]. intros limit.
    by rewrite Hnone.
Qed.

End UpdateCases.

(** * The further properties on the small instance *)

Section MoreInstances.
#[local] Existing Instance Sample.crypto.
#[local] Existing Instance Sample.schema.
#[local] Existing Instance Sample2.updates.

(** X2 on the instance: Ann logs in with her password. *)
Lemma login_token_only_for_verified_password_witness :
  exists u p h,
    body (Sample.login_request "ann@x.com" "secret1") !! "password" = Some p
    /\ p <> ""
    /\ truthy (body (Sample.login_request "ann@x.com" "secret1") !! "email") = true
    /\ List.find (by_email (body (Sample.login_request "ann@x.com" "secret1")
                            !! "email")) (users Sample.world) = Some u
    /\ password u = Some h
    /\ bcrypt_compare p h = true
    /\ events_since Sample.world
         (login Sample.env (Sample.login_request "ann@x.com" "secret1") Sample.world)
       = [token_response Sample.env u 200].
Proof.
  refine (login_token_only_for_verified_password
            Sample.env (Sample.login_request "ann@x.com" "secret1") Sample.world
            (token_response Sample.env Sample.ann 200) _ _).
  - vm_compute. by left.
  - reflexivity.
Defined.

(** X4 on the instance: the cookie of Ann's login, outside production. *)
Lemma token_cookie_always_httpOnly_secure_in_production_witness :
  token_response_shape Sample.env (token_response Sample.env Sample.ann 200).
Proof.
  refine (token_cookie_always_httpOnly_secure_in_production
            Sample.env (Sample.login_request "ann@x.com" "secret1") Sample.world
            _ _ _).
  - right. left. vm_compute. by left.
  - reflexivity.
Defined.

(** X7 on the instance: Bob registers, then logs in. *)
Lemma login_after_register_witness :
  let w1 := register Sample.env Sample.register_request Sample.world in
  let d := set_password (Some (bcrypt_hash "secret2" (genSalt Sample.env)))
                        (new_user Sample.env Sample.register_request) in
  users w1 = users Sample.world ++ [d]
  /\ events_since w1
       (login Sample.env_later (Sample.login_request "bob@x.com" "secret2") w1)
     = [token_response Sample.env_later d 200].
Proof.
  refine (login_after_register
            Sample.env Sample.register_request Sample.world Sample.env_later
            (Sample.login_request "bob@x.com" "secret2") "bob@x.com" "secret2"
            _ _ _ _ _ _ _ _ _).
  - vm_compute. reflexivity.
  - discriminate.
  - vm_compute. reflexivity.
  - discriminate.
  - vm_compute. reflexivity.
  - intros u Hu. members Hu. discriminate.
  - vm_compute. reflexivity.
  - vm_compute. reflexivity.
  - vm_compute. reflexivity.
Defined.

(** X8 on the instance: Ann resets her password, then logs in with it. *)
Lemma login_after_reset_witness :
  let w1 := resetPassword Sample.env Sample.reset_request Sample.world_pending in
  exists v,
    List.find (by_email (Some "ann@x.com")) (users w1) = Some v
    /\ _id v = "u1"
    /\ password v = Some "$2a$10$saltnewsecret"
    /\ events_since w1
         (login Sample.env_later (Sample.login_request "ann@x.com" "newsecret") w1)
       = [token_response Sample.env_later v 200].
Proof.
  refine (login_after_reset
            Sample.env Sample.reset_request Sample.world_pending Sample.env_later
            (Sample.login_request "ann@x.com" "newsecret")
            Sample.ann_pending "ann@x.com" "newsecret" _ _ _ _ _ _ _ _ _).
  - vm_compute. reflexivity.
  - vm_compute. reflexivity.
  - discriminate.
  - vm_compute. reflexivity.
  - discriminate.
  - vm_compute. reflexivity.
  - vm_compute. reflexivity.
  - vm_compute. reflexivity.
  - vm_compute. reflexivity.
Defined.


(** X11 on the instance: Ann deletes her bootcamp. *)
Lemma deleteBootcamp_by_owner_or_admin_witness :
  let w' := deleteBootcamp Sample.env (Sample.delete_request Sample.ann)
              Sample.world in
  events_since Sample.world w'
  = [BootcampDeleted Sample.devworks;
     ResJson 200 None [("success", JBool true); ("data", JEmptyObject)]]
  /\ (exists l1 l2, bootcamps Sample.world = l1 ++ Sample.devworks :: l2
                    /\ bootcamps w' = l1 ++ l2)
  /\ getBootcamp (Sample.delete_request Sample.ann) w'
     = rejected (ErrorResponse "Bootcamp not found with id of: b1" 404) w'.
Proof.
  refine (deleteBootcamp_by_owner_or_admin
            Sample.env (Sample.delete_request Sample.ann) Sample.world
            Sample.devworks Sample.ann _ _ _ _).
  - reflexivity.
  - reflexivity.
  - by left.
  - apply NoDup_singleton.
Defined.

(** X12 on the instance: Ann sends a body that names [u9] as the owner;
    the bootcamp is hers. *)
Lemma createBootcamp_owner_is_caller_witness :
  let b := new_bootcamp Sample.env
             (Sample2.create_request_for_other Sample.ann) Sample.ann in
  b ∈ bootcamps Sample2.world_empty
  \/ (bootcamp_id b = "u2"
      /\ bootcamp_user b = "u1"
      /\ bootcamp_data b !! "user" = None
      /\ forall k, k <> "user" ->
           bootcamp_data b !! k
           = body (Sample2.create_request_for_other Sample.ann) !! k).
Proof.
  refine (createBootcamp_owner_is_caller
            Sample.env (Sample2.create_request_for_other Sample.ann)
            Sample2.world_empty Sample.ann _ eq_refl _).
  vm_compute. by left.
Defined.

(** X13 on the instance: Ann, who owns one bootcamp, asks for another. *)
Lemma createBootcamp_keeps_one_per_publisher_witness :
  (owned "u1" (bootcamps (createBootcamp Sample.env
                            (Sample.create_request Sample.ann) Sample.world))
   <= Nat.max 1 (owned "u1" (bootcamps Sample.world)))%nat
  /\ forall uid, uid <> "u1" ->
       owned uid (bootcamps (createBootcamp Sample.env
                               (Sample.create_request Sample.ann) Sample.world))
       = owned uid (bootcamps Sample.world).
Proof.
  refine (createBootcamp_keeps_one_per_publisher
            Sample.env (Sample.create_request Sample.ann) Sample.world
            Sample.ann eq_refl _).
  discriminate.
Defined.

(** X14 on the instance: Ann creates her first bootcamp and fetches it. *)
Lemma getBootcamp_after_create_witness :
  let w1 := createBootcamp Sample.env (Sample.create_request Sample.ann)
              Sample2.world_empty in
  events_since w1 (getBootcamp (Sample2.get_request "u2") w1)
  = [ResJson 200 None
       [("success", JBool true);
        ("data", JBootcamp (new_bootcamp Sample.env
                              (Sample.create_request Sample.ann) Sample.ann))]].
Proof.
  refine (getBootcamp_after_create
            Sample.env (Sample.create_request Sample.ann) Sample2.world_empty
            Sample.ann _
            (ResJson 201 None
               [("success", JBool true);
                ("data", JBootcamp (new_bootcamp Sample.env
                                      (Sample.create_request Sample.ann)
                                      Sample.ann))])
            (Sample2.get_request "u2") eq_refl _ _ eq_refl).
  - vm_compute. reflexivity.
  - intros b0 Hb0. members Hb0.
Defined.

(** X15 on the instance: Bob, a publisher, updates Ann's bootcamp. *)
Lemma updateBootcamp_checks_before_writing_witness :
  updateBootcamp (Sample2.update_request Sample.bob) Sample.world
  = rejected (ErrorResponse
                "User u2 is not authorized to update this bootcamp" 401)
             Sample.world.
Proof.
  refine (updateBootcamp_checks_before_writing
            (Sample2.update_request Sample.bob) Sample.world
            Sample.devworks Sample.bob _ _ _ _).
  - reflexivity.
  - reflexivity.
  - discriminate.
  - discriminate.
Defined.


(** X19 on the instance: Ann uploads nothing, then a shell script. *)
Lemma bootcampPhotoUpload_refusals_witness :
  bootcampPhotoUpload Sample2.uenv (Sample2.photo_request Sample.ann) None
    (Sample.world, [])
  = (rejected (ErrorResponse "Please upload a file" 400) Sample.world, [])
  /\ bootcampPhotoUpload Sample2.uenv (Sample2.photo_request Sample.ann)
       (Some (Some Sample2.script)) (Sample.world, [])
     = (rejected (ErrorResponse "Please upload a image file" 400) Sample.world, []).
Proof.
  destruct (bootcampPhotoUpload_refusals
              Sample2.uenv (Sample2.photo_request Sample.ann) Sample.world []
              Sample.devworks Sample.ann)
    as (Hnone & Htype & _).
  - reflexivity.
  - reflexivity.
  - by left.
  - split; [exact Hnone|]. by apply Htype.
Defined.

End MoreInstances.
